(** * fetch_arxiv.py: a shallow embedding and its properties

    The script has two steps.  [fetch_recent_papers] asks the paper-search
    service once per category for the newest submissions and keeps the
    ones published inside a trailing window; [save_to_json] writes the
    collected records, with some run metadata, to a dated file and to
    [data/latest.json].

    What the script talks to (the system clock, the search service, the
    file system) is gathered in a [World]; the two functions are written
    in a small state-and-exception monad over it. *)

From stdpp Require Import base option list strings pretty gmap.
From Stdlib Require Import ZArith Lia Ascii Sorted.

Local Open Scope string_scope.
Local Open Scope list_scope.
Local Open Scope Z_scope.

(** ** Timestamps *)

Module Datetime.

(** A [datetime.datetime].  [wall] counts the microseconds spelled by the
    year ... microsecond fields since 0001-01-01T00:00:00, the origin of
    the proleptic calendar.  [tzinfo] is [None] for a naive value and
    [Some off] for an aware one, [off] being its UTC offset in
    microseconds.  The count is not bounded here; [datetime_ok] below
    says which counts Python can hold. *)
Record datetime := mk_datetime { wall : Z; tzinfo : option Z }.

Definition us_per_day : Z := 86400 * 1000000.

(** [timedelta(days=n)], in microseconds.  Python raises OverflowError
    beyond 999999999 days; this is not modelled, [timedelta_ok] below
    says when it does not happen. *)
Definition timedelta (days : Z) : Z := days * us_per_day.

(** [d - delta]: the fields move, the zone stays.  Python raises
    OverflowError when the result leaves the years 1 to 9999; this is
    not modelled, [datetime_ok] below says when it does not happen. *)
Definition sub (d : datetime) (delta : Z) : datetime :=
  {| wall := wall d - delta; tzinfo := tzinfo d |}.

(** [d.replace(tzinfo=None)]: the fields stay, the zone is dropped (no
    conversion takes place). *)
Definition replace_tzinfo_None (d : datetime) : datetime :=
  {| wall := wall d; tzinfo := None |}.

(** [a >= b].  Two naive values compare by their fields, two aware values
    by the instants they denote, and a naive value does not compare with
    an aware one (TypeError, here [None]). *)
Definition ge (a b : datetime) : option bool :=
  match tzinfo a, tzinfo b with
  | None, None => Some (wall b <=? wall a)
  | Some oa, Some ob => Some (wall b - ob <=? wall a - oa)
  | _, _ => None
  end.

(** [d.date()], as a day number. *)
Definition date (d : datetime) : Z := wall d `div` us_per_day.

(** The text [d.isoformat()] produces.  The text spells every field of
    [d] and its offset, so it is represented by the value it spells. *)
Inductive isostring := Iso (d : datetime).

Definition isoformat (d : datetime) : isostring := Iso d.

Definition parsed (s : isostring) : datetime := let 'Iso d := s in d.

(** The instant an aware value denotes; a naive value is read in the
    zone whose offset is [local]. *)
Definition instant (local : Z) (d : datetime) : Z :=
  match tzinfo d with
  | Some off => wall d - off
  | None => wall d - local
  end.

End Datetime.

Import Datetime.

(** ** Upstream results and the records built from them *)

(** [arxiv.Result.Author] *)
Record Author := mk_Author { name : string }.

(** [arxiv.Result], the fields the script reads. *)
Record Result := mk_Result {
  r_title : string;
  r_authors : list Author;
  r_summary : string;
  r_entry_id : string;
  r_published : datetime;
  r_categories : list string;
  r_primary_category : string
}.

(** The dictionary built for a kept result (lines 42-50). *)
Record Paper := mk_Paper {
  title : string;
  authors : list string;
  abstract : string;
  link : string;
  published : isostring;
  categories : list string;
  primary_category : string
}.

(** [s.replace("\n", " ")] *)
Fixpoint replace_newline (s : string) : string :=
  match s with
  | EmptyString => EmptyString
  | String c s' =>
      String (if Ascii.eqb c "010"%char then " "%char else c)
             (replace_newline s')
  end.

Definition make_paper (result : Result) : Paper :=
  {| title := r_title result;
     authors := name <$> r_authors result;
     abstract := replace_newline (r_summary result);
     link := r_entry_id result;
     published := isoformat (r_published result);
     categories := r_categories result;
     primary_category := r_primary_category result |}.

(** ** Exceptions and generators *)

Inductive exn :=
| TypeError
| FileExistsError
| IsADirectoryError
| UpstreamError (msg : string).

(** What iterating [client.results(search)] does: it hands out results one
    at a time, and every step may instead end the iteration or raise.
    The generator is lazy: what lies behind the point where the consumer
    stops is never run. *)
Inductive generator :=
| Stop
| Yield (result : Result) (rest : generator)
| Raise (e : exn).

Fixpoint of_list (l : list Result) : generator :=
  match l with
  | [] => Stop
  | r :: l' => Yield r (of_list l')
  end.

(** [itertools.islice(g, n)], which is how the client caps a search at
    [max_results]. *)
Fixpoint islice (n : nat) (g : generator) : generator :=
  match n with
  | O => Stop
  | S n' =>
      match g with
      | Yield r rest => Yield r (islice n' rest)
      | Stop => Stop
      | Raise e => Raise e
      end
  end.

Inductive SortCriterion := Relevance | LastUpdatedDate | SubmittedDate.
Inductive SortOrder := Ascending | Descending.

(** [arxiv.Search] *)
Record Search := mk_Search {
  query : string;
  max_results : nat;
  sort_by : SortCriterion;
  sort_order : SortOrder
}.

(** ** The world and the monad *)

Inductive node := Dir | File (content : string).

(** [clock n] is what the [n]-th call of [datetime.now()] returns (a naive
    local time, as microseconds), [ticks] counts the calls made so far.
    [service n s] is what the search service answers to search [s] when it
    is the [n]-th search sent; [issued] lists the searches sent so far,
    the newest last.  [fs] maps a path to what is there. *)
Record World := mk_World {
  clock : nat → Z;
  ticks : nat;
  service : nat → Search → generator;
  issued : list Search;
  fs : gmap string node
}.

Inductive outcome (A : Type) :=
| Returned (a : A)
| Raised (e : exn).
Arguments Returned {A} a.
Arguments Raised {A} e.

Definition M (A : Type) : Type := World → outcome A * World.

#[global] Instance M_ret : MRet M := λ A a w, (Returned a, w).

#[global] Instance M_bind : MBind M := λ A B f m w,
  match m w with
  | (Returned a, w') => f a w'
  | (Raised e, w') => (Raised e, w')
  end.

Definition raise {A} (e : exn) : M A := λ w, (Raised e, w).

(** [datetime.now()] *)
Definition datetime_now : M datetime := λ w,
  (Returned {| wall := clock w (ticks w); tzinfo := None |},
   mk_World (clock w) (S (ticks w)) (service w) (issued w) (fs w)).

(** [client.results(search)] *)
Definition client_results (search : Search) : M generator := λ w,
  (Returned (islice (max_results search)
               (service w (length (issued w)) search)),
   mk_World (clock w) (ticks w) (service w) (issued w ++ [search]) (fs w)).

(** [Path(p).mkdir(exist_ok=True)].  Of the ways the call can fail only
    the one that depends on what is at [p] is modelled; missing
    permissions and the like are not. *)
Definition mkdir_exist_ok (p : string) : M unit := λ w,
  match fs w !! p with
  | Some Dir => (Returned (), w)
  | Some (File _) => (Raised FileExistsError, w)
  | None =>
      (Returned (),
       mk_World (clock w) (ticks w) (service w) (issued w) (<[p := Dir]> (fs w)))
  end.

(** [with open(p, "w") as f: f.write(content)].  Of the ways the
    statement can fail only the one that depends on what is at [p] is
    modelled; a write that stops halfway (full disk, missing
    permissions) is not. *)
Definition write_file (p : string) (content : string) : M unit := λ w,
  match fs w !! p with
  | Some Dir => (Raised IsADirectoryError, w)
  | _ =>
      (Returned (),
       mk_World (clock w) (ticks w) (service w) (issued w)
                (<[p := File content]> (fs w)))
  end.

(** ** The Fetcher *)

Definition CATEGORIES : list string := ["cs.AI"; "cs.LG"; "cs.CL"; "cs.CY"].

(** Lines 31-36. *)
Definition search_for (category : string) : Search :=
  {| query := "cat:" +:+ category;
     max_results := 200;
     sort_by := SubmittedDate;
     sort_order := Descending |}.

(** The inner loop, lines 39-54: a kept result is appended to [papers],
    the first result that is too old ends the loop. *)
Fixpoint walk (start_date : datetime) (g : generator) (papers : list Paper)
  : outcome (list Paper) :=
  match g with
  | Stop => Returned papers
  | Raise e => Raised e
  | Yield result rest =>
      match ge (replace_tzinfo_None (r_published result)) start_date with
      | None => Raised TypeError
      | Some true => walk start_date rest (papers ++ [make_paper result])
      | Some false => Returned papers
      end
  end.

Definition lift {A} (o : outcome A) : M A := λ w, (o, w).

(** The outer loop, lines 27-54. *)
Fixpoint for_categories (cats : list string) (start_date : datetime)
    (papers : list Paper) : M (list Paper) :=
  match cats with
  | [] => mret papers
  | category :: cats' =>
      g ← client_results (search_for category);
      papers' ← lift (walk start_date g papers);
      for_categories cats' start_date papers'
  end.

Definition fetch_recent_papers (days : Z) : M (list Paper) :=
  end_date ← datetime_now;
  let start_date := sub end_date (timedelta days) in
  for_categories CATEGORIES start_date [].

(** ** The Writer *)

Record DateRange := mk_DateRange { start : isostring; end_ : isostring }.

(** The dictionary [output] of lines 72-80. *)
Record FetchResult := mk_FetchResult {
  fetched_at : isostring;
  date_range : DateRange;
  count : Z;
  papers : list Paper
}.

(** The two library routines that turn values into the text the script
    passes on unchanged: [strftime('%Y-%m-%d')], which depends on the day
    alone, and [json.dump(_, f, indent=2)]. *)
Class Formats := {
  strftime_Ymd : Z → string;
  json_dump : FetchResult → string
}.

(** Lines 72-80.  The dictionary display evaluates its values from top to
    bottom, which makes three further clock readings; they are named
    here. *)
Definition output (papers : list Paper) (days : Z) (now1 now2 now3 : datetime)
  : FetchResult :=
  {| fetched_at := isoformat now1;
     date_range := {| start := isoformat (sub now2 (timedelta days));
                      end_ := isoformat now3 |};
     count := Z.of_nat (length papers);
     papers := papers |}.

Definition data_dir : string := "data".
Definition latest_file : string := "data/latest.json".

(** Line 67. *)
Definition filename `{Formats} (today : datetime) : string :=
  "data/arxiv-" +:+ strftime_Ymd (date today) +:+ ".json".

Definition save_to_json `{Formats} (papers : list Paper) (days : Z) : M unit :=
  mkdir_exist_ok data_dir;;
  today ← datetime_now;
  now1 ← datetime_now;
  now2 ← datetime_now;
  now3 ← datetime_now;
  let output := output papers days now1 now2 now3 in
  write_file (filename today) (json_dump output);;
  write_file latest_file (json_dump output).

Definition DAYS : Z := 7.

(** Lines 93-98. *)
Definition main `{Formats} : M unit :=
  papers ← fetch_recent_papers DAYS;
  save_to_json papers DAYS.

(** ** Notions used to state the properties *)

(** The test of line 41, once both sides are known to be naive. *)
Definition in_window (start_date : datetime) (result : Result) : bool :=
  wall start_date <=? wall (r_published result).

(** The results [walk] keeps: the longest prefix of what the generator
    yields that passes the test. *)
Fixpoint kept (start_date : datetime) (g : generator) : list Result :=
  match g with
  | Yield result rest =>
      if in_window start_date result
      then result :: kept start_date rest else []
  | _ => []
  end.

(** The exception [walk] runs into, if any: one that the generator raises
    before a result that is too old has ended the loop. *)
Fixpoint failure (start_date : datetime) (g : generator) : option exn :=
  match g with
  | Yield result rest =>
      if in_window start_date result then failure start_date rest else None
  | Raise e => Some e
  | Stop => None
  end.

(** The world after the searches [l] have been sent. *)
Definition after_searches (w : World) (l : list Search) : World :=
  mk_World (clock w) (ticks w) (service w) (issued w ++ l) (fs w).

(** The generator the [i]-th search from now gets, asked for [category]. *)
Definition answer (w : World) (i : nat) (category : string) : generator :=
  islice (max_results (search_for category))
         (service w (i + length (issued w))%nat (search_for category)).

(** The cutoff [fetch_recent_papers days] uses when started in [w]. *)
Definition cutoff (w : World) (days : Z) : datetime :=
  sub {| wall := clock w (ticks w); tzinfo := None |} (timedelta days).

(** The world after one more clock reading. *)
Definition tick (w : World) : World :=
  mk_World (clock w) (S (ticks w)) (service w) (issued w) (fs w).

(** The records a run of the Fetcher started in [w] collects, category by
    category. *)
Definition contributions (w : World) (start_date : datetime)
    (cats : list string) : list (list Paper) :=
  imap (λ i category, make_paper <$> kept start_date (answer w i category)) cats.

(** Scanning everything a search returned and keeping what is inside the
    window, with no early exit. *)
Definition scan_all (start_date : datetime) (results : list Result)
  : list Paper :=
  make_paper <$> List.filter (in_window start_date) results.

(** Newest first: every result is published strictly after all that
    follow it, compared the way line 41 compares. *)
Definition newest_first (results : list Result) : Prop :=
  StronglySorted (λ a b, wall (r_published b) < wall (r_published a)) results.

(** The same without strictness. *)
Definition descending (results : list Result) : Prop :=
  StronglySorted (λ a b, wall (r_published b) ≤ wall (r_published a)) results.

(** Everything the generator yields, whether the walk gets there or not. *)
Fixpoint yielded (g : generator) : list Result :=
  match g with
  | Yield result rest => result :: yielded rest
  | _ => []
  end.

(** The [i]-th clock reading from now. *)
Definition reading (w : World) (i : nat) : datetime :=
  {| wall := clock w (i + ticks w)%nat; tzinfo := None |}.

Definition is_file (n : option node) : bool :=
  match n with Some (File _) => true | _ => false end.

Definition is_dir (n : option node) : bool :=
  match n with Some Dir => true | _ => false end.

(** The dated file of a call of [save_to_json] started in [w]. *)
Definition dated_file `{Formats} (w : World) : string := filename (reading w 0).

(** The dictionary a call of [save_to_json] started in [w] builds. *)
Definition written (papers : list Paper) (days : Z) (w : World)
  : FetchResult :=
  output papers days (reading w 1) (reading w 2) (reading w 3).

(** Nothing is in the way of the directory and of the two files. *)
Definition writable `{Formats} (w : World) : bool :=
  negb (is_file (fs w !! data_dir)) &&
  negb (is_dir (fs w !! dated_file w)) &&
  negb (is_dir (fs w !! latest_file)).

(** The world a successful call of [save_to_json] leaves. *)
Definition saved `{Formats} (papers : list Paper) (days : Z) (w : World) : World :=
  let content := File (json_dump (written papers days w)) in
  mk_World (clock w) (4 + ticks w) (service w) (issued w)
    (<[latest_file := content]>
       (<[dated_file w := content]> (<[data_dir := Dir]> (fs w)))).

(** The world in which [main], started in [w], calls [save_to_json]. *)
Definition fetched (w : World) : World :=
  after_searches (tick w) (search_for <$> CATEGORIES).

(** The records [main], started in [w], hands to [save_to_json]. *)
Definition collected (w : World) : list Paper :=
  concat (contributions (tick w) (cutoff w DAYS) CATEGORIES).

(** The sentence of the specification on publication dates, as worded:
    every record is published no earlier than [fetched_at] minus the
    window, both read in the zone whose offset is [local]. *)
Definition published_within (local days : Z) (out : FetchResult) : Prop :=
  ∀ p, p ∈ papers out →
    instant local (parsed (fetched_at out)) - timedelta days
      ≤ instant local (parsed (published p)).

(** The sentence on the recorded range, as worded: it is at least as long
    as the window. *)
Definition range_covers_window (days : Z) (out : FetchResult) : Prop :=
  timedelta days ≤
    wall (parsed (end_ (date_range out))) -
    wall (parsed (start (date_range out))).

(** ** Running the model *)

Module Examples.

(** A stand-in for the two text routines, to run the model with. *)
Definition plain : Formats :=
  {| strftime_Ymd := λ day, pretty day;
     json_dump := λ out,
       pretty (count out) +:+ ":" +:+
       String.concat "," (link <$> papers out) |}.

Definition utc (t : Z) : datetime := {| wall := t; tzinfo := Some 0 |}.

Definition entry (id : string) (t : Z) : Result :=
  {| r_title := "T"; r_authors := [ {| name := "A" |} ];
     r_summary := "one" +:+ String "010"%char "two";
     r_entry_id := id; r_published := utc t;
     r_categories := ["cs.AI"; "cs.LG"]; r_primary_category := "cs.AI" |}.

Definition second : Z := 1000000.
Definition window : Z := timedelta DAYS.

(** A clock that starts at [t0] and advances one second per reading. *)
Definition ticking (t0 : Z) : nat → Z := λ n, t0 + Z.of_nat n * second.

Definition world (clk : nat → Z) (svc : nat → Search → generator)
    (files : gmap string node) : World :=
  {| clock := clk; ticks := 0; service := svc; issued := []; fs := files |}.

End Examples.

Module Runs.
Import Examples.

Definition url : string := "http://arxiv.org/abs/2501.00001v1".

(** A paper published one second before the run starts. *)
Definition fresh : Result := entry url (10 * window - second).

(** A paper published exactly seven days before the run starts. *)
Definition borderline : Result := entry url (9 * window).

Definition asks (s : Search) (category : string) : bool :=
  String.eqb (query s) ("cat:" +:+ category).

(** Started at day 70 sharp; cs.AI returns one paper published exactly at
    the cutoff, the other categories return nothing. *)
Definition edge_world : World :=
  world (ticking (10 * window))
    (λ _ s, if asks s "cs.AI" then of_list [borderline] else Stop)
    ∅.

(** cs.AI and cs.LG both return the same fresh paper. *)
Definition cross_listed : World :=
  world (ticking (10 * window))
    (λ _ s, if asks s "cs.AI" || asks s "cs.LG"
            then of_list [fresh] else Stop)
    ∅.

(** No category has anything. *)
Definition quiet_world : World :=
  world (ticking (10 * window)) (λ _ _, Stop) ∅.

(** The first four searches see one paper in cs.AI, the later ones see
    it in cs.AI and cs.LG; an older latest file is on disk. *)
Definition busy_world : World :=
  world (ticking (10 * window))
    (λ n s, if asks s "cs.AI" || (asks s "cs.LG" && (4 <=? n)%nat)
            then of_list [fresh] else Stop)
    {[ "data" := Dir; "data/latest.json" := File "old";
       "notes.txt" := File "keep" ]}.

(** cs.AI answers, cs.LG fails. *)
Definition failing_world : World :=
  world (ticking (10 * window))
    (λ _ s, if asks s "cs.AI" then of_list [fresh]
            else if asks s "cs.LG" then Raise (UpstreamError "HTTP 503")
            else Stop)
    {[ "data" := Dir; "data/latest.json" := File "old" ]}.

(** The clock is set back by an hour between the fourth and the fifth
    reading. *)
Definition set_back_world : World :=
  world (λ n, if (4 <=? n)%nat then 10 * window - 3600 * second
              else ticking (10 * window) n)
    (λ _ _, Stop) ∅.

Definition listing : list Result :=
  [entry "a" (10 * window); entry "b" (9 * window + 5); entry "c" (8 * window)].

(** The world a run of the script started in [w] leaves, and the
    dictionary it builds. *)
Definition after (w : World) : World := snd (@main plain w).

Definition out (w : World) : FetchResult :=
  written (collected w) DAYS (fetched w).

End Runs.


(** ** Further notions *)

(** The generator that yields the results [l] and then goes on as [g]. *)
Definition prepend (l : list Result) (g : generator) : generator :=
  foldr Yield g l.

(** The exception a generator ends with when it is run to its end. *)
Fixpoint raised_by (g : generator) : option exn :=
  match g with
  | Stop => None
  | Yield _ rest => raised_by rest
  | Raise e => Some e
  end.

(** What line 45 does to one character. *)
Definition newline_to_space (c : ascii) : ascii :=
  if Ascii.eqb c "010"%char then " "%char else c.

(** The world [save_to_json], started in [w], leaves when a directory
    sits where the dated file should be: the output directory is there
    and the clock has been read four times. *)
Definition blocked_dated (w : World) : World :=
  mk_World (clock w) (4 + ticks w) (service w) (issued w)
    (<[data_dir := Dir]> (fs w)).

(** The world it leaves when a directory sits where the latest file
    should be: the dated file has been written by then. *)
Definition blocked_latest `{Formats} (papers : list Paper) (days : Z)
    (w : World) : World :=
  mk_World (clock w) (4 + ticks w) (service w) (issued w)
    (<[dated_file w := File (json_dump (written papers days w))]>
       (<[data_dir := Dir]> (fs w))).

(** Python computes [timedelta(days=days)]. *)
Definition timedelta_ok (days : Z) : bool :=
  (-999999999 <=? days) && (days <=? 999999999).

(** Python can hold [d]: it lies in the years 1 to 9999, which have
    3652059 days. *)
Definition datetime_ok (d : datetime) : bool :=
  (0 <=? wall d) && (wall d <? 3652059 * us_per_day).

(** ** The client's requests

    What follows is modelled from the arxiv package, which is not part of
    the repository.  Line 19 builds [arxiv.Client()] with the defaults of
    the package; a request that fails is sent again until the retries
    are used up, and only then does the exception leave
    [client.results]. *)
Record Client := mk_Client {
  page_size : nat;
  delay_seconds : Z;
  num_retries : nat
}.

Definition default_Client : Client :=
  {| page_size := 100; delay_seconds := 3; num_retries := 3 |}.

(** The answer to one sending of a request. *)
Inductive response := Feed (entries : list Result) | Failed (e : exn).

(** [Client._parse_feed]: [server n] answers the [n]-th sending of the
    request.  The result is the answer that leaves the client and the
    number of times the request has been sent. *)
Fixpoint parse_feed (retries_left : nat) (server : nat → response)
    (try_index : nat) : response * nat :=
  match server try_index with
  | Feed entries => (Feed entries, S try_index)
  | Failed e =>
      match retries_left with
      | O => (Failed e, S try_index)
      | S retries => parse_feed retries server (S try_index)
      end
  end.

(** The generator of a search whose first page holds all there is. *)
Definition first_page (client : Client) (server : nat → response)
  : generator :=
  match fst (parse_feed (num_retries client) server 0) with
  | Feed entries => of_list entries
  | Failed e => Raise e
  end.

Definition requests_sent (client : Client) (server : nat → response) : nat :=
  snd (parse_feed (num_retries client) server 0).

Module Cases.
Import Examples.

(** cs.AI returns a stale paper before the fresh one, cs.LG returns the
    fresh one alone. *)
Definition unsorted_world : World :=
  world (ticking (10 * window))
    (λ _ s, if Runs.asks s "cs.AI"
            then of_list [entry "http://arxiv.org/abs/2412.00001v1"
                            (8 * window); Runs.fresh]
            else if Runs.asks s "cs.LG" then of_list [Runs.fresh]
            else Stop)
    ∅.

(** A server that answers every sending of a request with a failure. *)
Definition down : nat → response :=
  λ _, Failed (UpstreamError "HTTP 503").

(** cs.AI is answered at once, the server is down for cs.LG. *)
Definition retrying_world : World :=
  world (ticking (10 * window))
    (λ _ s, if Runs.asks s "cs.AI"
            then first_page default_Client (λ _, Feed [Runs.fresh])
            else if Runs.asks s "cs.LG" then first_page default_Client down
            else Stop)
    ∅.

(** A paper published two weeks before the run starts. *)
Definition stale : Result := entry "http://arxiv.org/abs/2412.00001v1" (8 * window).

(** A listing in which a failure and a fresh paper hide behind a stale
    one. *)
Definition hidden : generator :=
  Yield stale (Yield Runs.fresh (Raise (UpstreamError "HTTP 503"))).

(** A regular file sits where the directory should be. *)
Definition data_is_file : World :=
  world (ticking (10 * window)) (λ _ _, Stop) {[ "data" := File "x" ]}.

(** A directory sits where the dated file should be. *)
Definition dated_is_dir : World :=
  world (ticking (10 * window)) (λ _ _, Stop)
    {[ "data" := Dir; "data/arxiv-70.json" := Dir;
       "data/latest.json" := File "old" ]}.

(** A directory sits where the latest file should be. *)
Definition latest_is_dir : World :=
  world (ticking (10 * window)) (λ _ _, Stop)
    {[ "data" := Dir; "data/latest.json" := Dir ]}.

(** The clock jumps to the next week after the first run's five
    readings. *)
Definition two_days : World :=
  world (λ n, if (5 <=? n)%nat then 11 * window else ticking (10 * window) n)
    (λ _ s, if Runs.asks s "cs.AI" then of_list [Runs.fresh] else Stop)
    ∅.

End Cases.

(** ** Lemmas on the Fetcher *)

Lemma ge_naive (d start_date : datetime) :
  tzinfo start_date = None →
  ge (replace_tzinfo_None d) start_date = Some (wall start_date <=? wall d).
Proof. intros Hn. unfold ge. simpl. now rewrite Hn. Qed.

(** Two aware values in one zone, such as the UTC times the service
    gives, are ordered as their fields are: for them the order by
    publication time and the order line 41 looks at coincide. *)
Lemma ge_same_zone (a b : datetime) (off : Z) :
  tzinfo a = Some off → tzinfo b = Some off →
  ge a b = ge (replace_tzinfo_None a) (replace_tzinfo_None b).
Proof.
  intros Ha Hb. unfold ge. rewrite Ha, Hb. simpl. f_equal.
  destruct (Z.leb_spec (wall b - off) (wall a - off));
    destruct (Z.leb_spec (wall b) (wall a)); try done; lia.
Qed.

Lemma cutoff_naive (w : World) (days : Z) : tzinfo (cutoff w days) = None.
Proof. reflexivity. Qed.

Lemma walk_eq (start_date : datetime) (g : generator) (acc : list Paper) :
  tzinfo start_date = None →
  walk start_date g acc =
    match failure start_date g with
    | Some e => Raised e
    | None => Returned (acc ++ (make_paper <$> kept start_date g))
    end.
Proof.
  intros Hn. revert acc.
  induction g as [|result rest IH|e]; intros acc; simpl.
  - now rewrite app_nil_r.
  - rewrite ge_naive by assumption. unfold in_window.
    destruct (wall start_date <=? wall (r_published result)).
    + rewrite IH. destruct (failure start_date rest); [done|].
      simpl. now rewrite <- app_assoc.
    + now rewrite app_nil_r.
  - done.
Qed.

Lemma after_searches_app (w : World) (l1 l2 : list Search) :
  after_searches (after_searches w l1) l2 = after_searches w (l1 ++ l2).
Proof. unfold after_searches. simpl. now rewrite <- app_assoc. Qed.

Lemma answer_after (w : World) (s : Search) (i : nat) (category : string) :
  answer (after_searches w [s]) i category = answer w (S i) category.
Proof.
  unfold answer, after_searches. simpl. rewrite length_app. simpl.
  replace (i + (length (issued w) + 1))%nat with (S (i + length (issued w))) by lia.
  reflexivity.
Qed.

Lemma for_categories_cons (category : string) (cats : list string)
    (start_date : datetime) (acc : list Paper) (w : World) :
  for_categories (category :: cats) start_date acc w =
    match walk start_date (answer w 0 category) acc with
    | Returned ps =>
        for_categories cats start_date ps
          (after_searches w [search_for category])
    | Raised e => (Raised e, after_searches w [search_for category])
    end.
Proof. reflexivity. Qed.

Lemma for_categories_returned (cats : list string) (start_date : datetime)
    (acc ps : list Paper) (w w' : World) :
  tzinfo start_date = None →
  for_categories cats start_date acc w = (Returned ps, w') →
  w' = after_searches w (search_for <$> cats) ∧
  ps = acc ++ concat (contributions w start_date cats) ∧
  ∀ i category, cats !! i = Some category →
    failure start_date (answer w i category) = None.
Proof.
  intros Hn. revert acc w.
  induction cats as [|c cats IH]; intros acc w H.
  - injection H as <- <-. unfold after_searches. simpl.
    rewrite !app_nil_r. split; [by destruct w|]. split; [done|].
    intros i category Hi. by rewrite lookup_nil in Hi.
  - rewrite for_categories_cons, walk_eq in H by assumption.
    destruct (failure start_date (answer w 0 c)) eqn:Hf; [done|].
    apply IH in H as (-> & -> & Hall).
    rewrite after_searches_app. split; [done|]. split.
    + unfold contributions. rewrite imap_cons. simpl.
      rewrite <- app_assoc. f_equal. f_equal. f_equal.
      apply imap_ext. intros i x _. simpl. now rewrite answer_after.
    + intros [|i] category Hi; simpl in Hi.
      * by injection Hi as <-.
      * rewrite <- answer_after with (s := search_for c). by apply Hall.
Qed.

Lemma for_categories_raised (cats : list string) (start_date : datetime)
    (acc : list Paper) (e : exn) (w w' : World) :
  tzinfo start_date = None →
  for_categories cats start_date acc w = (Raised e, w') →
  ∃ k category,
    cats !! k = Some category ∧
    w' = after_searches w (search_for <$> take (S k) cats) ∧
    failure start_date (answer w k category) = Some e.
Proof.
  intros Hn. revert acc w.
  induction cats as [|c cats IH]; intros acc w H; [done|].
  rewrite for_categories_cons, walk_eq in H by assumption.
  destruct (failure start_date (answer w 0 c)) as [e'|] eqn:Hf.
  - injection H as <- <-. by exists 0%nat, c.
  - apply IH in H as (k & category & Hk & -> & Hfail).
    exists (S k), category. split; [done|].
    rewrite after_searches_app, answer_after in *. done.
Qed.

(** The loop is total, so it returns as soon as no category fails. *)
Lemma for_categories_returns (cats : list string) (start_date : datetime)
    (acc : list Paper) (w : World) :
  tzinfo start_date = None →
  (∀ i category, cats !! i = Some category →
     failure start_date (answer w i category) = None) →
  for_categories cats start_date acc w =
    (Returned (acc ++ concat (contributions w start_date cats)),
     after_searches w (search_for <$> cats)).
Proof.
  intros Hn Hall.
  destruct (for_categories cats start_date acc w) as [[ps|e] w'] eqn:H.
  - by apply for_categories_returned in H as (-> & -> & _).
  - apply for_categories_raised in H as (k & c & Hk & _ & Hf); [|done].
    rewrite (Hall _ _ Hk) in Hf. done.
Qed.

Lemma fetch_recent_papers_eq (days : Z) (w : World) :
  fetch_recent_papers days w =
    for_categories CATEGORIES (cutoff w days) [] (tick w).
Proof. reflexivity. Qed.

Lemma kept_in_window (start_date : datetime) (g : generator) (r : Result) :
  r ∈ kept start_date g → in_window start_date r = true.
Proof.
  induction g as [|result rest IH|e]; simpl; intros Hin.
  - by apply elem_of_nil in Hin.
  - destruct (in_window start_date result) eqn:Hw.
    + apply elem_of_cons in Hin as [->|Hin]; [assumption|auto].
    + by apply elem_of_nil in Hin.
  - by apply elem_of_nil in Hin.
Qed.

Lemma kept_prefix (start_date : datetime) (g : generator) :
  kept start_date g `prefix_of` yielded g.
Proof.
  induction g as [|result rest IH|e]; simpl; try apply prefix_nil.
  destruct (in_window start_date result).
  - by apply prefix_cons.
  - apply prefix_nil.
Qed.

Lemma descending_head_bound (x : Result) (l : list Result) (r : Result) :
  descending (x :: l) → r ∈ x :: l →
  wall (r_published r) ≤ wall (r_published x).
Proof.
  intros Hs Hin. apply StronglySorted_inv in Hs as [_ Hall].
  apply elem_of_cons in Hin as [->|Hin]; [lia|].
  rewrite Forall_forall in Hall. by apply Hall.
Qed.

(** In a descending listing nothing inside the window hides behind a
    result that is outside of it. *)
Lemma kept_descending (start_date : datetime) (g : generator) (r : Result) :
  descending (yielded g) → r ∈ yielded g →
  in_window start_date r = true → r ∈ kept start_date g.
Proof.
  induction g as [|result rest IH|e]; simpl; intros Hs Hin Hw; try done.
  pose proof (descending_head_bound _ _ _ Hs Hin) as Hle.
  assert (in_window start_date result = true) as ->.
  { unfold in_window in *. apply Z.leb_le. apply Z.leb_le in Hw. lia. }
  apply elem_of_cons in Hin as [->|Hin]; [left|right].
  apply IH; try done. by apply StronglySorted_inv in Hs as [? _].
Qed.

Lemma newest_first_descending (l : list Result) :
  newest_first l → descending l.
Proof.
  unfold newest_first, descending. induction 1 as [|x l Hs IH Hall].
  - constructor.
  - constructor; [done|]. eapply Forall_impl; [exact Hall|].
    simpl. intros. lia.
Qed.

Lemma islice_of_list (n : nat) (l : list Result) :
  islice n (of_list l) = of_list (take n l).
Proof.
  revert l. induction n as [|n IH]; intros [|r l]; simpl; try done.
  by rewrite IH.
Qed.

Lemma yielded_of_list (l : list Result) : yielded (of_list l) = l.
Proof. induction l as [|r l IH]; simpl; [done|]. by rewrite IH. Qed.

Lemma failure_of_list (start_date : datetime) (l : list Result) :
  failure start_date (of_list l) = None.
Proof.
  induction l as [|r l IH]; simpl; [done|].
  by destruct (in_window start_date r).
Qed.

Lemma filter_none {A} (f : A → bool) (l : list A) :
  (∀ x, x ∈ l → f x = false) → List.filter f l = [].
Proof.
  induction l as [|x l IH]; intros Hall; simpl; [done|].
  rewrite (Hall x) by left. apply IH. intros y Hy. apply Hall. by right.
Qed.

Lemma kept_of_list_descending (start_date : datetime) (l : list Result) :
  descending l →
  kept start_date (of_list l) = List.filter (in_window start_date) l.
Proof.
  induction l as [|x l IH]; intros Hs; simpl; [done|].
  destruct (in_window start_date x) eqn:Hx.
  - f_equal. apply IH. by apply StronglySorted_inv in Hs as [? _].
  - symmetry. apply filter_none. intros r Hin.
    destruct (in_window start_date r) eqn:Hr; [|done].
    assert (r ∈ x :: l) as Hin' by (by right).
    pose proof (descending_head_bound _ _ _ Hs Hin') as Hle.
    unfold in_window in *. apply Z.leb_le in Hr. apply Z.leb_gt in Hx. lia.
Qed.

Lemma elem_of_contributions (w : World) (start_date : datetime)
    (cats : list string) (p : Paper) :
  p ∈ concat (contributions w start_date cats) →
  ∃ i category r,
    cats !! i = Some category ∧
    r ∈ kept start_date (answer w i category) ∧ p = make_paper r.
Proof.
  intros Hin. apply list_elem_of_In, in_concat in Hin as (l & Hl & Hp).
  apply list_elem_of_In, elem_of_lookup_imap in Hl as (i & c & -> & Hc).
  apply list_elem_of_In, list_elem_of_fmap in Hp as (r & -> & Hr).
  by exists i, c, r.
Qed.

Lemma elem_of_concat_lookup {A} (ls : list (list A)) (j : nat) (l : list A)
    (y : A) :
  ls !! j = Some l → y ∈ l → ∃ b, concat ls !! b = Some y.
Proof.
  intros Hj Hy. apply list_elem_of_lookup, list_elem_of_In, in_concat.
  exists l. split; apply list_elem_of_In; [|done].
  by eapply list_elem_of_lookup_2.
Qed.

Lemma concat_two_positions {A} (ls : list (list A)) (i j : nat)
    (l1 l2 : list A) (x y : A) :
  (i < j)%nat → ls !! i = Some l1 → ls !! j = Some l2 → x ∈ l1 → y ∈ l2 →
  ∃ a b, (a < b)%nat ∧ concat ls !! a = Some x ∧ concat ls !! b = Some y.
Proof.
  revert i j. induction ls as [|l ls IH]; intros i j Hij Hi Hj Hx Hy.
  - by rewrite lookup_nil in Hi.
  - destruct j as [|j]; [lia|]. simpl in Hj. destruct i as [|i]; simpl in Hi.
    + injection Hi as ->.
      apply list_elem_of_lookup in Hx as [a Ha].
      destruct (elem_of_concat_lookup ls j l2 y Hj Hy) as [b Hb].
      exists a, (length l1 + b)%nat. simpl.
      pose proof (lookup_lt_Some _ _ _ Ha). split; [lia|]. split.
      * by apply lookup_app_l_Some.
      * rewrite lookup_app_r by lia.
        by replace (length l1 + b - length l1)%nat with b by lia.
    + destruct (IH i j) as (a & b & Hab & Ha & Hb); try done; [lia|].
      exists (length l + a)%nat, (length l + b)%nat. simpl.
      split; [lia|].
      rewrite !lookup_app_r by lia.
      replace (length l + a - length l)%nat with a by lia.
      by replace (length l + b - length l)%nat with b by lia.
Qed.

Lemma for_categories_fails (k : nat) (cats : list string)
    (start_date : datetime) (acc : list Paper) (w : World)
    (category : string) (e : exn) :
  tzinfo start_date = None →
  cats !! k = Some category →
  failure start_date (answer w k category) = Some e →
  (∀ j c, (j < k)%nat → cats !! j = Some c →
     failure start_date (answer w j c) = None) →
  for_categories cats start_date acc w =
    (Raised e, after_searches w (search_for <$> take (S k) cats)).
Proof.
  intros Hn. revert cats acc w.
  induction k as [|k IH]; intros [|c cats] acc w Hk Hf Hbefore; try done.
  - simpl in Hk. injection Hk as ->.
    by rewrite for_categories_cons, walk_eq, Hf.
  - simpl in Hk.
    rewrite for_categories_cons, walk_eq by assumption.
    rewrite (Hbefore 0%nat c) by (done || lia).
    rewrite (IH cats _ _ Hk).
    + by rewrite after_searches_app.
    + by rewrite answer_after.
    + intros j c' Hj Hc'. rewrite answer_after.
      apply Hbefore; [lia|done].
Qed.

(** ** Lemmas on the Writer *)

Section Writer.
Context `{Formats}.

Lemma dated_not_dir (today : datetime) : filename today ≠ data_dir.
Proof. unfold filename, data_dir. simpl. discriminate. Qed.

Lemma latest_not_dir : latest_file ≠ data_dir.
Proof. discriminate. Qed.

Lemma dated_not_latest (today : datetime) : filename today ≠ latest_file.
Proof. unfold filename, latest_file. simpl. discriminate. Qed.

Lemma save_to_json_writable (papers : list Paper) (days : Z) (w : World) :
  writable w = true →
  save_to_json papers days w = (Returned (), saved papers days w).
Proof.
  unfold writable, dated_file. intros Hw.
  apply andb_prop in Hw as [Hw Hl]. apply andb_prop in Hw as [Hd Hf].
  unfold save_to_json, saved, written, dated_file, mbind, M_bind,
    mkdir_exist_ok, datetime_now, write_file, reading in *.
  simpl in *.
  destruct (fs w !! data_dir) as [[|c]|] eqn:Hdir; simpl in *; try done.
  - rewrite (insert_id (fs w) data_dir Dir Hdir).
    destruct (fs w !! filename _) as [[|c]|] eqn:Hfile; simpl in *;
      try done;
      (rewrite lookup_insert_ne by apply dated_not_latest);
      destruct (fs w !! latest_file) as [[|c']|]; simpl in *; done.
  - rewrite lookup_insert_ne by (apply not_eq_sym, dated_not_dir).
    destruct (fs w !! filename _) as [[|c]|] eqn:Hfile; simpl in *;
      try done;
      (rewrite lookup_insert_ne by apply dated_not_latest);
      (rewrite lookup_insert_ne by (apply not_eq_sym, latest_not_dir));
      destruct (fs w !! latest_file) as [[|c']|]; simpl in *; done.
Qed.

Lemma save_to_json_returned (papers : list Paper) (days : Z) (w w' : World) :
  save_to_json papers days w = (Returned (), w') →
  writable w = true ∧ w' = saved papers days w.
Proof.
  intros Hrun.
  destruct (writable w) eqn:Hw.
  - rewrite save_to_json_writable in Hrun by assumption.
    by injection Hrun as <-.
  - exfalso. revert Hrun Hw.
    unfold writable, save_to_json, dated_file, mbind, M_bind,
      mkdir_exist_ok, datetime_now, write_file, reading.
    simpl.
    destruct (fs w !! data_dir) as [[|c]|] eqn:Hdir; simpl; try done.
    + destruct (fs w !! filename _) as [[|c]|] eqn:Hfile; simpl;
        try done;
        (rewrite lookup_insert_ne by apply dated_not_latest);
        destruct (fs w !! latest_file) as [[|c']|]; simpl; done.
    + rewrite lookup_insert_ne by (apply not_eq_sym, dated_not_dir).
      destruct (fs w !! filename _) as [[|c]|] eqn:Hfile; simpl;
        try done;
        (rewrite lookup_insert_ne by apply dated_not_latest);
        (rewrite lookup_insert_ne by (apply not_eq_sym, latest_not_dir));
        destruct (fs w !! latest_file) as [[|c']|]; simpl; done.
Qed.

Lemma saved_dated (papers : list Paper) (days : Z) (w : World) :
  fs (saved papers days w) !! dated_file w =
    Some (File (json_dump (written papers days w))).
Proof.
  unfold saved. simpl.
  rewrite lookup_insert_ne by (apply not_eq_sym, dated_not_latest).
  apply lookup_insert_eq.
Qed.

Lemma saved_latest (papers : list Paper) (days : Z) (w : World) :
  fs (saved papers days w) !! latest_file =
    Some (File (json_dump (written papers days w))).
Proof. unfold saved. simpl. apply lookup_insert_eq. Qed.

Lemma saved_data_dir (papers : list Paper) (days : Z) (w : World) :
  fs (saved papers days w) !! data_dir = Some Dir.
Proof.
  unfold saved. simpl.
  rewrite lookup_insert_ne by apply latest_not_dir.
  rewrite lookup_insert_ne by apply dated_not_dir.
  apply lookup_insert_eq.
Qed.

Lemma saved_other (papers : list Paper) (days : Z) (w : World) (p : string) :
  p ≠ data_dir → p ≠ dated_file w → p ≠ latest_file →
  fs (saved papers days w) !! p = fs w !! p.
Proof.
  intros Hd Hf Hl. unfold saved. simpl.
  by rewrite !lookup_insert_ne.
Qed.

Lemma main_returned (w w' : World) :
  main w = (Returned (), w') →
  fetch_recent_papers DAYS w = (Returned (collected w), fetched w) ∧
  writable (fetched w) = true ∧
  w' = saved (collected w) DAYS (fetched w).
Proof.
  unfold main, mbind, M_bind. intros Hrun.
  destruct (fetch_recent_papers DAYS w) as [[ps|e] w1] eqn:Hfetch; [|done].
  rewrite fetch_recent_papers_eq in Hfetch.
  apply for_categories_returned in Hfetch as (-> & -> & _);
    [|apply cutoff_naive].
  apply save_to_json_returned in Hrun as [Hw ->]. done.
Qed.

Lemma main_raised_in_fetch (w w1 : World) (e : exn) :
  fetch_recent_papers DAYS w = (Raised e, w1) →
  main w = (Raised e, w1).
Proof. unfold main, mbind, M_bind. by intros ->. Qed.

(** What a run that returns leaves in the two files. *)
Lemma main_files (w w' : World) :
main w = (Returned (), w') →
fs w' !! dated_file (fetched w) =
  Some (File (json_dump (written (collected w) DAYS (fetched w)))) ∧
fs w' !! latest_file =
  Some (File (json_dump (written (collected w) DAYS (fetched w)))).
Proof.
intros Hrun. apply main_returned in Hrun as (_ & _ & ->).
split; [apply saved_dated | apply saved_latest].
Qed.

End Writer.

(** A run whose outcome evaluates to a return has returned in the world
    it leaves. *)
Lemma returned_in_snd {A} (m : M A) (w : World) (a : A) :
  fst (m w) = Returned a → m w = (Returned a, snd (m w)).
Proof. destruct (m w) as [o w']. simpl. by intros ->. Qed.


(** ** The claims *)

(** C1, as the code has it: every record in the papers array that a run
    writes carries a publication time whose fields, once its zone is
    dropped, are no earlier than the Fetcher's own cutoff, which is the
    clock reading taken when the fetch began minus the window. *)
Theorem published_not_before_cutoff `{Formats} (w w' : World) :
  main w = (Returned (), w') →
  let out := written (collected w) DAYS (fetched w) in
  fetch_recent_papers DAYS w = (Returned (papers out), fetched w) ∧
  fs w' !! latest_file = Some (File (json_dump out)) ∧
  ∀ p, p ∈ papers out →
    clock w (ticks w) - timedelta DAYS
      ≤ wall (replace_tzinfo_None (parsed (published p))).
Proof.
  intros Hrun out. split; [by apply main_returned in Hrun as (? & _)|].
  split; [by apply main_files|].
  intros p Hp. simpl in Hp. unfold collected in Hp.
  apply elem_of_contributions in Hp as (i & c & r & _ & Hr & ->).
  apply kept_in_window in Hr. unfold in_window in Hr.
  apply Z.leb_le in Hr. exact Hr.
Qed.

(** C3: in the dictionary a run writes, [count] is the length of
    [papers]. *)
Theorem count_is_length `{Formats} (w w' : World) :
  main w = (Returned (), w') →
  let out := written (collected w) DAYS (fetched w) in
  fs w' !! dated_file (fetched w) = Some (File (json_dump out)) ∧
  fs w' !! latest_file = Some (File (json_dump out)) ∧
  count out = Z.of_nat (length (papers out)).
Proof.
  intros Hrun out. apply main_files in Hrun as [Hd Hl]. done.
Qed.

(** C4, as the code has it: when two different categories both return a
    result with one and the same entry link, both inside the window, and
    the two listings are in descending order of publication time, the
    papers array of the run holds a record for each of them, at two
    different positions. *)
Theorem no_deduplication `{Formats} (w w' : World) (i j : nat) (ci cj : string)
    (ri rj : Result) :
  main w = (Returned (), w') →
  i ≠ j →
  CATEGORIES !! i = Some ci → CATEGORIES !! j = Some cj →
  descending (yielded (answer (tick w) i ci)) →
  descending (yielded (answer (tick w) j cj)) →
  ri ∈ yielded (answer (tick w) i ci) →
  rj ∈ yielded (answer (tick w) j cj) →
  r_entry_id ri = r_entry_id rj →
  in_window (cutoff w DAYS) ri = true →
  in_window (cutoff w DAYS) rj = true →
  let out := written (collected w) DAYS (fetched w) in
  fetch_recent_papers DAYS w = (Returned (papers out), fetched w) ∧
  fs w' !! latest_file = Some (File (json_dump out)) ∧
  ∃ a b pa pb, a ≠ b ∧
    papers out !! a = Some pa ∧ papers out !! b = Some pb ∧
    pa = make_paper ri ∧ pb = make_paper rj ∧ link pa = link pb.
Proof.
  intros Hrun Hij Hi Hj Hsi Hsj Hri Hrj Hid Hwi Hwj out.
  split; [by apply main_returned in Hrun as (? & _)|].
  split; [by apply main_files|].
  pose proof (kept_descending _ _ _ Hsi Hri Hwi) as Hki.
  pose proof (kept_descending _ _ _ Hsj Hrj Hwj) as Hkj.
  apply (list_elem_of_fmap_2 make_paper) in Hki, Hkj.
  pose proof (list_lookup_imap_Some
    (λ i c, make_paper <$> kept (cutoff w DAYS) (answer (tick w) i c))
    CATEGORIES) as Him.
  assert (contributions (tick w) (cutoff w DAYS) CATEGORIES !! i =
          Some (make_paper <$> kept (cutoff w DAYS) (answer (tick w) i ci)))
    as Hci by (apply Him; eauto).
  assert (contributions (tick w) (cutoff w DAYS) CATEGORIES !! j =
          Some (make_paper <$> kept (cutoff w DAYS) (answer (tick w) j cj)))
    as Hcj by (apply Him; eauto).
  destruct (decide (i < j)%nat) as [Hlt|Hge].
  - destruct (concat_two_positions _ _ _ _ _ _ _ Hlt Hci Hcj Hki Hkj)
      as (a & b & Hab & Ha & Hb).
    exists a, b, (make_paper ri), (make_paper rj).
    repeat split; try done. lia.
  - assert (j < i)%nat as Hlt by lia.
    destruct (concat_two_positions _ _ _ _ _ _ _ Hlt Hcj Hci Hkj Hki)
      as (b & a & Hab & Hb & Ha).
    exists a, b, (make_paper ri), (make_paper rj).
    repeat split; try done. lia.
Qed.

(** C5: a run that returns has put the same text into the dated file and
    into the latest file. *)
Theorem both_files_identical `{Formats} (w w' : World) :
  main w = (Returned (), w') →
  ∃ content,
    fs w' !! dated_file (fetched w) = Some (File content) ∧
    fs w' !! latest_file = Some (File content) ∧
    content = json_dump (written (collected w) DAYS (fetched w)).
Proof.
  intros Hrun. apply main_files in Hrun as [Hd Hl]. eauto.
Qed.

(** C6: when every category's search stops without a result and nothing
    is in the way on disk, the run returns and both files hold a
    dictionary with [count] 0 and no papers; and a category that yields
    nothing leaves the collected records as they were and lets the loop
    go on. *)
Theorem empty_run_is_written `{Formats} (w : World) :
  (∀ i category, CATEGORIES !! i = Some category →
     answer (tick w) i category = Stop) →
  writable (fetched w) = true →
  let out := written [] DAYS (fetched w) in
  main w = (Returned (), saved [] DAYS (fetched w)) ∧
  fs (saved [] DAYS (fetched w)) !! dated_file (fetched w) =
    Some (File (json_dump out)) ∧
  fs (saved [] DAYS (fetched w)) !! latest_file =
    Some (File (json_dump out)) ∧
  count out = 0 ∧ papers out = [] ∧
  ∀ category cats start_date acc v,
    answer v 0 category = Stop →
    for_categories (category :: cats) start_date acc v =
      for_categories cats start_date acc
        (after_searches v [search_for category]).
Proof.
  intros Hempty Hw out.
  assert (fetch_recent_papers DAYS w = (Returned [], fetched w)) as Hfetch.
  { rewrite fetch_recent_papers_eq.
    rewrite for_categories_returns; [|apply cutoff_naive|].
    - unfold contributions, CATEGORIES. simpl.
      rewrite (Hempty 0%nat "cs.AI"), (Hempty 1%nat "cs.LG"),
        (Hempty 2%nat "cs.CL"), (Hempty 3%nat "cs.CY") by done.
      done.
    - intros i c Hc. by rewrite (Hempty i c Hc). }
  split.
  { unfold main, mbind, M_bind. rewrite Hfetch.
    by apply save_to_json_writable. }
  split; [apply saved_dated|]. split; [apply saved_latest|].
  split; [done|]. split; [done|].
  intros category cats start_date acc v Hstop.
  by rewrite for_categories_cons, Hstop.
Qed.

(** C7: of two runs, one after the other on the same calendar day, the
    second leaves in the dated file and in the latest file exactly the
    text of its own dictionary, whatever the first run or anyone else had
    put there; the directory is there afterwards, and no other path is
    touched. *)
Theorem rerun_overwrites `{Formats} (w w1 w2 : World) :
  main w = (Returned (), w1) →
  main w1 = (Returned (), w2) →
  date (reading (fetched w) 0) = date (reading (fetched w1) 0) →
  let out1 := written (collected w) DAYS (fetched w) in
  let out2 := written (collected w1) DAYS (fetched w1) in
  dated_file (fetched w1) = dated_file (fetched w) ∧
  fs w1 !! dated_file (fetched w) = Some (File (json_dump out1)) ∧
  fs w1 !! latest_file = Some (File (json_dump out1)) ∧
  fs w2 !! dated_file (fetched w) = Some (File (json_dump out2)) ∧
  fs w2 !! latest_file = Some (File (json_dump out2)) ∧
  fs w2 !! data_dir = Some Dir ∧
  (∀ p, p ≠ data_dir → p ≠ dated_file (fetched w) → p ≠ latest_file →
     fs w2 !! p = fs w !! p) ∧
  ∀ files,
    written (collected (mk_World (clock w1) (ticks w1) (service w1)
                          (issued w1) files)) DAYS
            (fetched (mk_World (clock w1) (ticks w1) (service w1)
                        (issued w1) files)) = out2.
Proof.
  intros Hrun1 Hrun2 Hday out1 out2.
  assert (dated_file (fetched w1) = dated_file (fetched w)) as Hsame.
  { unfold dated_file, filename. by rewrite Hday. }
  pose proof (main_files _ _ Hrun1) as [Hd1 Hl1].
  pose proof (main_files _ _ Hrun2) as [Hd2 Hl2].
  rewrite Hsame in Hd2.
  apply main_returned in Hrun1 as (_ & _ & Hw1).
  apply main_returned in Hrun2 as (_ & _ & Hw2).
  repeat split; try done.
  - rewrite Hw2. apply saved_data_dir.
  - intros p Hp1 Hp2 Hp3. rewrite Hw2.
    rewrite saved_other by (by rewrite ?Hsame).
    change (fs (fetched w1)) with (fs w1). rewrite Hw1.
    by rewrite saved_other.
Qed.


(** C9: the papers array of a run is what the four categories
    contributed, in the order cs.AI, cs.LG, cs.CL, cs.CY, and what a
    category contributed is an initial stretch of what its search
    yielded, in the order it was yielded. *)
Theorem papers_in_category_order `{Formats} (w w' : World) :
  main w = (Returned (), w') →
  let out := written (collected w) DAYS (fetched w) in
  let results_kept i category :=
    kept (cutoff w DAYS) (answer (tick w) i category) in
  fetch_recent_papers DAYS w = (Returned (papers out), fetched w) ∧
  fs w' !! latest_file = Some (File (json_dump out)) ∧
  papers out =
    (make_paper <$> results_kept 0%nat "cs.AI") ++
    (make_paper <$> results_kept 1%nat "cs.LG") ++
    (make_paper <$> results_kept 2%nat "cs.CL") ++
    (make_paper <$> results_kept 3%nat "cs.CY") ∧
  ∀ i category,
    results_kept i category `prefix_of` yielded (answer (tick w) i category).
Proof.
  intros Hrun out results_kept.
  split; [by apply main_returned in Hrun as (? & _)|].
  split; [by apply main_files|]. split.
  - simpl. unfold collected, contributions, CATEGORIES. simpl.
    by rewrite app_nil_r.
  - intros i category. apply kept_prefix.
Qed.

(** C10, as the code has it: the three times in the dictionary are the
    third, fourth and fifth clock readings of the run, while the cutoff
    that selected the papers came from the first.  The recorded range is
    at least as long as the window when the reading for its end is not
    earlier than the reading for its start, and the recorded start lies
    strictly after the cutoff when its reading is later than the
    Fetcher's. *)
Theorem metadata_from_later_readings `{Formats} (w w' : World) :
  main w = (Returned (), w') →
  let out := written (collected w) DAYS (fetched w) in
  let now i := {| wall := clock w (i + ticks w)%nat; tzinfo := None |} in
  fs w' !! latest_file = Some (File (json_dump out)) ∧
  cutoff w DAYS = sub (now 0%nat) (timedelta DAYS) ∧
  fetched_at out = isoformat (now 2%nat) ∧
  start (date_range out) = isoformat (sub (now 3%nat) (timedelta DAYS)) ∧
  end_ (date_range out) = isoformat (now 4%nat) ∧
  (clock w (3 + ticks w)%nat ≤ clock w (4 + ticks w)%nat →
     range_covers_window DAYS out) ∧
  (clock w (ticks w) < clock w (3 + ticks w)%nat →
     wall (cutoff w DAYS) < wall (parsed (start (date_range out)))).
Proof.
  intros Hrun out now. split; [by apply main_files|].
  unfold out, written, output, reading, fetched, range_covers_window.
  simpl. repeat split; try done; intros; lia.
Qed.

(** C2: when what a search returned (at most 200 results) is strictly
    descending by publication time, the walk with its early exit appends
    exactly the records that scanning all of it and filtering by the
    window gives. *)
Theorem early_exit_same_as_scan_all (w : World) (days : Z)
    (results : list Result) (acc : list Paper) :
  newest_first (take 200 results) →
  walk (cutoff w days) (islice 200 (of_list results)) acc =
    Returned (acc ++ scan_all (cutoff w days) (take 200 results)).
Proof.
  intros Hs. rewrite islice_of_list, walk_eq by apply cutoff_naive.
  rewrite failure_of_list. unfold scan_all.
  by rewrite kept_of_list_descending by (by apply newest_first_descending).
Qed.


(** ** The claims on concrete runs *)

(** What the two runs of [busy_world] leave on disk. *)
Example busy_world_files :
  fs (Runs.after Runs.busy_world) !! "data/arxiv-70.json" =
    Some (File ("1:" +:+ Runs.url)) ∧
  fs (Runs.after Runs.busy_world) !! "data/latest.json" =
    Some (File ("1:" +:+ Runs.url)) ∧
  fs (Runs.after (Runs.after Runs.busy_world)) !! "data/arxiv-70.json" =
    Some (File ("2:" +:+ Runs.url +:+ "," +:+ Runs.url)) ∧
  fs (Runs.after (Runs.after Runs.busy_world)) !! "data/latest.json" =
    Some (File ("2:" +:+ Runs.url +:+ "," +:+ Runs.url)) ∧
  fs (Runs.after (Runs.after Runs.busy_world)) !! "notes.txt" =
    Some (File "keep") ∧
  size (fs (Runs.after (Runs.after Runs.busy_world))) = 4%nat.
Proof. repeat split; vm_compute; reflexivity. Qed.

(** A failing search leaves the disk alone. *)
Example failing_world_outcome :
  fst (@main Examples.plain Runs.failing_world) =
    Raised (UpstreamError "HTTP 503") ∧
  fs (snd (@main Examples.plain Runs.failing_world)) !! "data/latest.json" =
    Some (File "old") ∧
  query <$> issued (snd (@main Examples.plain Runs.failing_world)) =
    ["cat:cs.AI"; "cat:cs.LG"].
Proof. repeat split; vm_compute; reflexivity. Qed.

(** *** C1 *)

(** The sentence of the specification fails for C1: the paper published
    exactly at the Fetcher's cutoff is kept, and [fetched_at], read two
    seconds later, minus the window lies after it.  Clock and paper are
    both in UTC. *)
Lemma published_within_counterexample :
  @main Examples.plain Runs.edge_world =
    (Returned (), Runs.after Runs.edge_world) ∧
  fs (Runs.after Runs.edge_world) !! latest_file =
    Some (File (@json_dump Examples.plain (Runs.out Runs.edge_world))) ∧
  make_paper Runs.borderline ∈ papers (Runs.out Runs.edge_world) ∧
  ¬ published_within 0 DAYS (Runs.out Runs.edge_world).
Proof.
  assert (make_paper Runs.borderline ∈ papers (Runs.out Runs.edge_world))
    as Hin by (vm_compute; left).
  split.
  { apply (returned_in_snd (@main Examples.plain) Runs.edge_world ()).
    vm_compute; reflexivity. }
  split; [vm_compute; reflexivity|]. split; [exact Hin|].
  intros Hall. apply Hall in Hin. revert Hin.
  vm_compute. intros Hle. by apply Hle.
Qed.

(** The zone of a publication time is dropped, not converted.  Read the
    clock of [edge_world] as that of a machine five hours behind UTC: the
    kept paper was then published five hours before the instant the
    Fetcher's cutoff denotes. *)
Example zone_is_dropped :
  make_paper Runs.borderline ∈ papers (Runs.out Runs.edge_world) ∧
  instant (-5 * 3600 * Examples.second)
    (parsed (published (make_paper Runs.borderline))) =
  instant (-5 * 3600 * Examples.second) (cutoff Runs.edge_world DAYS)
    - 5 * 3600 * Examples.second.
Proof. split; vm_compute; [left | reflexivity]. Qed.

Lemma published_not_before_cutoff_witness :
  @main Examples.plain Runs.edge_world =
    (Returned (), Runs.after Runs.edge_world) ∧
  (let out :=
     written (collected Runs.edge_world) DAYS (fetched Runs.edge_world) in
   fetch_recent_papers DAYS Runs.edge_world =
     (Returned (papers out), fetched Runs.edge_world) ∧
   fs (Runs.after Runs.edge_world) !! latest_file =
     Some (File (@json_dump Examples.plain out)) ∧
   ∀ p, p ∈ papers out →
     clock Runs.edge_world (ticks Runs.edge_world) - timedelta DAYS
       ≤ wall (replace_tzinfo_None (parsed (published p)))).
Proof.
  assert (@main Examples.plain Runs.edge_world =
            (Returned (), Runs.after Runs.edge_world)) as Hrun.
  { apply (returned_in_snd (@main Examples.plain) Runs.edge_world ()).
    vm_compute; reflexivity. }
  split; [exact Hrun|].
  exact (@published_not_before_cutoff Examples.plain Runs.edge_world
           (Runs.after Runs.edge_world) Hrun).
Defined.

(** *** C2 *)

Lemma early_exit_same_as_scan_all_witness :
  newest_first (take 200 Runs.listing) ∧
  walk (cutoff Runs.quiet_world 7) (islice 200 (of_list Runs.listing)) [] =
    Returned ([] ++ scan_all (cutoff Runs.quiet_world 7)
                      (take 200 Runs.listing)).
Proof.
  assert (newest_first (take 200 Runs.listing)) as Hs.
  { unfold newest_first. simpl. repeat constructor; simpl; lia. }
  split; [exact Hs|].
  exact (early_exit_same_as_scan_all Runs.quiet_world 7 Runs.listing [] Hs).
Defined.

(** The early exit on [listing]: the third result is too old, the first
    two are kept. *)
Example listing_walk :
  walk (cutoff Runs.quiet_world 7) (islice 200 (of_list Runs.listing)) [] =
    Returned [make_paper (Examples.entry "a" (10 * Examples.window));
              make_paper (Examples.entry "b" (9 * Examples.window + 5))].
Proof. vm_compute; reflexivity. Qed.

(** *** C3 *)

Lemma count_is_length_witness :
  @main Examples.plain Runs.cross_listed =
    (Returned (), Runs.after Runs.cross_listed) ∧
  (let out :=
     written (collected Runs.cross_listed) DAYS (fetched Runs.cross_listed) in
   fs (Runs.after Runs.cross_listed)
     !! @dated_file Examples.plain (fetched Runs.cross_listed) =
     Some (File (@json_dump Examples.plain out)) ∧
   fs (Runs.after Runs.cross_listed) !! latest_file =
     Some (File (@json_dump Examples.plain out)) ∧
   count out = Z.of_nat (length (papers out))).
Proof.
  assert (@main Examples.plain Runs.cross_listed =
            (Returned (), Runs.after Runs.cross_listed)) as Hrun.
  { apply (returned_in_snd (@main Examples.plain) Runs.cross_listed ()).
    vm_compute; reflexivity. }
  split; [exact Hrun|].
  exact (@count_is_length Examples.plain Runs.cross_listed
           (Runs.after Runs.cross_listed) Hrun).
Defined.

(** *** C4 *)

Lemma no_deduplication_witness :
  @main Examples.plain Runs.cross_listed =
    (Returned (), Runs.after Runs.cross_listed) ∧
  Runs.fresh ∈ yielded (answer (tick Runs.cross_listed) 0 "cs.AI") ∧
  Runs.fresh ∈ yielded (answer (tick Runs.cross_listed) 1 "cs.LG") ∧
  in_window (cutoff Runs.cross_listed DAYS) Runs.fresh = true ∧
  (let out :=
     written (collected Runs.cross_listed) DAYS (fetched Runs.cross_listed) in
   fetch_recent_papers DAYS Runs.cross_listed =
     (Returned (papers out), fetched Runs.cross_listed) ∧
   fs (Runs.after Runs.cross_listed) !! latest_file =
     Some (File (@json_dump Examples.plain out)) ∧
   ∃ a b pa pb, a ≠ b ∧
     papers out !! a = Some pa ∧ papers out !! b = Some pb ∧
     pa = make_paper Runs.fresh ∧ pb = make_paper Runs.fresh ∧
     link pa = link pb).
Proof.
  assert (@main Examples.plain Runs.cross_listed =
            (Returned (), Runs.after Runs.cross_listed)) as Hrun.
  { apply (returned_in_snd (@main Examples.plain) Runs.cross_listed ()).
    vm_compute; reflexivity. }
  assert (Runs.fresh ∈ yielded (answer (tick Runs.cross_listed) 0 "cs.AI"))
    as Hri by (vm_compute; left).
  assert (Runs.fresh ∈ yielded (answer (tick Runs.cross_listed) 1 "cs.LG"))
    as Hrj by (vm_compute; left).
  assert (in_window (cutoff Runs.cross_listed DAYS) Runs.fresh = true) as Hw
    by (vm_compute; reflexivity).
  assert (descending (yielded (answer (tick Runs.cross_listed) 0 "cs.AI")))
    as Hsi.
  { replace (yielded (answer (tick Runs.cross_listed) 0 "cs.AI"))
      with [Runs.fresh] by (vm_compute; reflexivity).
    repeat constructor. }
  assert (descending (yielded (answer (tick Runs.cross_listed) 1 "cs.LG")))
    as Hsj.
  { replace (yielded (answer (tick Runs.cross_listed) 1 "cs.LG"))
      with [Runs.fresh] by (vm_compute; reflexivity).
    repeat constructor. }
  assert (0%nat ≠ 1%nat) as Hne by lia.
  repeat (split; [assumption|]).
  exact (@no_deduplication Examples.plain Runs.cross_listed
           (Runs.after Runs.cross_listed) 0 1 "cs.AI" "cs.LG"
           Runs.fresh Runs.fresh Hrun Hne eq_refl eq_refl Hsi Hsj Hri Hrj
           eq_refl Hw Hw).
Defined.

(** The record is there twice. *)
Example cross_listed_papers :
  papers (Runs.out Runs.cross_listed) =
    [make_paper Runs.fresh; make_paper Runs.fresh].
Proof. vm_compute; reflexivity. Qed.

(** The sentence of the specification fails for C4 when a listing is
    not in descending order: cs.AI and cs.LG both return the fresh
    paper, inside the window, but in cs.AI it comes after a paper that
    is too old, where the walk has already stopped.  The papers array
    holds one record with that link, not two. *)
Lemma once_per_category_counterexample :
  @main Examples.plain Cases.unsorted_world =
    (Returned (), Runs.after Cases.unsorted_world) ∧
  Runs.fresh ∈ yielded (answer (tick Cases.unsorted_world) 0 "cs.AI") ∧
  Runs.fresh ∈ yielded (answer (tick Cases.unsorted_world) 1 "cs.LG") ∧
  in_window (cutoff Cases.unsorted_world DAYS) Runs.fresh = true ∧
  fs (Runs.after Cases.unsorted_world) !! latest_file =
    Some (File (@json_dump Examples.plain (Runs.out Cases.unsorted_world))) ∧
  papers (Runs.out Cases.unsorted_world) = [make_paper Runs.fresh] ∧
  ¬ ∃ a b pa pb, a ≠ b ∧
      papers (Runs.out Cases.unsorted_world) !! a = Some pa ∧
      papers (Runs.out Cases.unsorted_world) !! b = Some pb ∧
      link pa = Runs.url ∧ link pb = Runs.url.
Proof.
  assert (papers (Runs.out Cases.unsorted_world) = [make_paper Runs.fresh])
    as Hps by (vm_compute; reflexivity).
  split.
  { apply (returned_in_snd (@main Examples.plain) Cases.unsorted_world ()).
    vm_compute; reflexivity. }
  split; [vm_compute; right; left|]. split; [vm_compute; left|].
  split; [vm_compute; reflexivity|]. split; [vm_compute; reflexivity|].
  split; [exact Hps|].
  rewrite Hps. intros (a & b & pa & pb & Hab & Ha & Hb & _).
  destruct a as [|a]; destruct b as [|b]; simpl in Ha, Hb; done.
Qed.

(** *** C5 *)

Lemma both_files_identical_witness :
  @main Examples.plain Runs.busy_world =
    (Returned (), Runs.after Runs.busy_world) ∧
  ∃ content,
    fs (Runs.after Runs.busy_world)
      !! @dated_file Examples.plain (fetched Runs.busy_world) =
      Some (File content) ∧
    fs (Runs.after Runs.busy_world) !! latest_file = Some (File content) ∧
    content = @json_dump Examples.plain
                (written (collected Runs.busy_world) DAYS
                   (fetched Runs.busy_world)).
Proof.
  assert (@main Examples.plain Runs.busy_world =
            (Returned (), Runs.after Runs.busy_world)) as Hrun.
  { apply (returned_in_snd (@main Examples.plain) Runs.busy_world ()).
    vm_compute; reflexivity. }
  split; [exact Hrun|].
  exact (@both_files_identical Examples.plain Runs.busy_world
           (Runs.after Runs.busy_world) Hrun).
Defined.

(** *** C6 *)

Lemma empty_run_is_written_witness :
  @writable Examples.plain (fetched Runs.quiet_world) = true ∧
  (let out := written [] DAYS (fetched Runs.quiet_world) in
   @main Examples.plain Runs.quiet_world =
     (Returned (), @saved Examples.plain [] DAYS (fetched Runs.quiet_world)) ∧
   fs (@saved Examples.plain [] DAYS (fetched Runs.quiet_world))
     !! @dated_file Examples.plain (fetched Runs.quiet_world) =
     Some (File (@json_dump Examples.plain out)) ∧
   fs (@saved Examples.plain [] DAYS (fetched Runs.quiet_world))
     !! latest_file =
     Some (File (@json_dump Examples.plain out)) ∧
   count out = 0 ∧ papers out = [] ∧
   ∀ category cats start_date acc v,
     answer v 0 category = Stop →
     for_categories (category :: cats) start_date acc v =
       for_categories cats start_date acc
         (after_searches v [search_for category])).
Proof.
  assert (∀ i category, CATEGORIES !! i = Some category →
            answer (tick Runs.quiet_world) i category = Stop) as Hempty
    by (intros i category _; reflexivity).
  assert (@writable Examples.plain (fetched Runs.quiet_world) = true) as Hw
    by (vm_compute; reflexivity).
  split; [exact Hw|].
  exact (@empty_run_is_written Examples.plain Runs.quiet_world Hempty Hw).
Defined.

(** The files of the empty run. *)
Example quiet_world_files :
  fst (@main Examples.plain Runs.quiet_world) = Returned () ∧
  fs (Runs.after Runs.quiet_world) !! "data" = Some Dir ∧
  fs (Runs.after Runs.quiet_world) !! "data/arxiv-70.json" =
    Some (File "0:") ∧
  fs (Runs.after Runs.quiet_world) !! "data/latest.json" = Some (File "0:").
Proof. repeat split; vm_compute; reflexivity. Qed.

(** *** C7 *)

Lemma rerun_overwrites_witness :
  @main Examples.plain Runs.busy_world =
    (Returned (), Runs.after Runs.busy_world) ∧
  @main Examples.plain (Runs.after Runs.busy_world) =
    (Returned (), Runs.after (Runs.after Runs.busy_world)) ∧
  date (reading (fetched Runs.busy_world) 0) =
    date (reading (fetched (Runs.after Runs.busy_world)) 0) ∧
  (let w := Runs.busy_world in
   let w1 := Runs.after Runs.busy_world in
   let w2 := Runs.after (Runs.after Runs.busy_world) in
   let out1 := written (collected w) DAYS (fetched w) in
   let out2 := written (collected w1) DAYS (fetched w1) in
   @dated_file Examples.plain (fetched w1) =
     @dated_file Examples.plain (fetched w) ∧
   fs w1 !! @dated_file Examples.plain (fetched w) =
     Some (File (@json_dump Examples.plain out1)) ∧
   fs w1 !! latest_file = Some (File (@json_dump Examples.plain out1)) ∧
   fs w2 !! @dated_file Examples.plain (fetched w) =
     Some (File (@json_dump Examples.plain out2)) ∧
   fs w2 !! latest_file = Some (File (@json_dump Examples.plain out2)) ∧
   fs w2 !! data_dir = Some Dir ∧
   (∀ p, p ≠ data_dir → p ≠ @dated_file Examples.plain (fetched w) →
      p ≠ latest_file → fs w2 !! p = fs w !! p) ∧
   ∀ files,
     written (collected (mk_World (clock w1) (ticks w1) (service w1)
                           (issued w1) files)) DAYS
             (fetched (mk_World (clock w1) (ticks w1) (service w1)
                         (issued w1) files)) = out2).
Proof.
  assert (@main Examples.plain Runs.busy_world =
            (Returned (), Runs.after Runs.busy_world)) as Hrun1.
  { apply (returned_in_snd (@main Examples.plain) Runs.busy_world ()).
    vm_compute; reflexivity. }
  assert (@main Examples.plain (Runs.after Runs.busy_world) =
            (Returned (), Runs.after (Runs.after Runs.busy_world))) as Hrun2.
  { apply (returned_in_snd (@main Examples.plain)
             (Runs.after Runs.busy_world) ()).
    vm_compute; reflexivity. }
  assert (date (reading (fetched Runs.busy_world) 0) =
          date (reading (fetched (Runs.after Runs.busy_world)) 0)) as Hday
    by (vm_compute; reflexivity).
  repeat (split; [assumption|]).
  exact (@rerun_overwrites Examples.plain Runs.busy_world
           (Runs.after Runs.busy_world)
           (Runs.after (Runs.after Runs.busy_world)) Hrun1 Hrun2 Hday).
Defined.

(** *** C8 *)



(** *** C9 *)

Lemma papers_in_category_order_witness :
  @main Examples.plain Runs.cross_listed =
    (Returned (), Runs.after Runs.cross_listed) ∧
  (let w := Runs.cross_listed in
   let out := written (collected w) DAYS (fetched w) in
   let results_kept i category :=
     kept (cutoff w DAYS) (answer (tick w) i category) in
   fetch_recent_papers DAYS w = (Returned (papers out), fetched w) ∧
   fs (Runs.after w) !! latest_file =
     Some (File (@json_dump Examples.plain out)) ∧
   papers out =
     (make_paper <$> results_kept 0%nat "cs.AI") ++
     (make_paper <$> results_kept 1%nat "cs.LG") ++
     (make_paper <$> results_kept 2%nat "cs.CL") ++
     (make_paper <$> results_kept 3%nat "cs.CY") ∧
   ∀ i category,
     results_kept i category
       `prefix_of` yielded (answer (tick w) i category)).
Proof.
  assert (@main Examples.plain Runs.cross_listed =
            (Returned (), Runs.after Runs.cross_listed)) as Hrun.
  { apply (returned_in_snd (@main Examples.plain) Runs.cross_listed ()).
    vm_compute; reflexivity. }
  split; [exact Hrun|].
  exact (@papers_in_category_order Examples.plain Runs.cross_listed
           (Runs.after Runs.cross_listed) Hrun).
Defined.

(** *** C10 *)

(** The sentence on the recorded range fails for C10 when the clock is
    set back between the reading for its start and the reading for its
    end: the range is then shorter than the window. *)
Lemma range_covers_window_counterexample :
  @main Examples.plain Runs.set_back_world =
    (Returned (), Runs.after Runs.set_back_world) ∧
  fs (Runs.after Runs.set_back_world) !! latest_file =
    Some (File (@json_dump Examples.plain (Runs.out Runs.set_back_world))) ∧
  wall (parsed (end_ (date_range (Runs.out Runs.set_back_world)))) -
  wall (parsed (start (date_range (Runs.out Runs.set_back_world)))) =
    timedelta DAYS - 3603 * Examples.second ∧
  ¬ range_covers_window DAYS (Runs.out Runs.set_back_world).
Proof.
  split.
  { apply (returned_in_snd (@main Examples.plain) Runs.set_back_world ()).
    vm_compute; reflexivity. }
  split; [vm_compute; reflexivity|]. split; [vm_compute; reflexivity|].
  unfold range_covers_window. vm_compute. intros Hle. by apply Hle.
Qed.

Lemma metadata_from_later_readings_witness :
  @main Examples.plain Runs.edge_world =
    (Returned (), Runs.after Runs.edge_world) ∧
  (let w := Runs.edge_world in
   let out := written (collected w) DAYS (fetched w) in
   let now i := {| wall := clock w (i + ticks w)%nat; tzinfo := None |} in
   fs (Runs.after w) !! latest_file =
     Some (File (@json_dump Examples.plain out)) ∧
   cutoff w DAYS = sub (now 0%nat) (timedelta DAYS) ∧
   fetched_at out = isoformat (now 2%nat) ∧
   start (date_range out) = isoformat (sub (now 3%nat) (timedelta DAYS)) ∧
   end_ (date_range out) = isoformat (now 4%nat) ∧
   (clock w (3 + ticks w)%nat ≤ clock w (4 + ticks w)%nat →
      range_covers_window DAYS out) ∧
   (clock w (ticks w) < clock w (3 + ticks w)%nat →
      wall (cutoff w DAYS) < wall (parsed (start (date_range out))))).
Proof.
  assert (@main Examples.plain Runs.edge_world =
            (Returned (), Runs.after Runs.edge_world)) as Hrun.
  { apply (returned_in_snd (@main Examples.plain) Runs.edge_world ()).
    vm_compute; reflexivity. }
  split; [exact Hrun|].
  exact (@metadata_from_later_readings Examples.plain Runs.edge_world
           (Runs.after Runs.edge_world) Hrun).
Defined.

(** On a clock that runs forward both premises of C10 hold. *)
Example edge_world_clock :
  clock Runs.edge_world (3 + ticks Runs.edge_world)%nat
    ≤ clock Runs.edge_world (4 + ticks Runs.edge_world)%nat ∧
  clock Runs.edge_world (ticks Runs.edge_world)
    < clock Runs.edge_world (3 + ticks Runs.edge_world)%nat.
Proof. split; vm_compute; [discriminate | reflexivity]. Qed.

(** ** Further properties of the Fetcher *)

Lemma replace_newline_get (s : string) (i : nat) :
  String.get i (replace_newline s) = newline_to_space <$> String.get i s.
Proof.
  revert i. induction s as [|c s IH]; intros i; simpl; [done|].
  destruct i as [|i]; simpl; [done|]. apply IH.
Qed.

Lemma newline_to_space_not_newline (c : ascii) :
  newline_to_space c ≠ "010"%char.
Proof.
  unfold newline_to_space. destruct (Ascii.eqb c "010") eqn:Hc; [done|].
  by apply Ascii.eqb_neq in Hc.
Qed.

Lemma newline_to_space_idemp (c : ascii) :
  newline_to_space (newline_to_space c) = newline_to_space c.
Proof.
  unfold newline_to_space.
  destruct (Ascii.eqb c "010") eqn:Hc; [done|]. by rewrite Hc.
Qed.

(** X1: the abstract of a record is the summary of the result with every
    newline turned into a space and every other character left in its
    place: it has the length of the summary, holds no newline, and
    normalising it again changes nothing. *)
Theorem abstract_single_line (result : Result) :
  String.length (abstract (make_paper result)) =
    String.length (r_summary result) ∧
  (∀ i, String.get i (abstract (make_paper result)) =
        newline_to_space <$> String.get i (r_summary result)) ∧
  (∀ i, String.get i (abstract (make_paper result)) ≠ Some "010"%char) ∧
  replace_newline (abstract (make_paper result)) =
    abstract (make_paper result).
Proof.
  simpl. generalize (r_summary result). intros s. repeat split.
  - induction s as [|c s IH]; simpl; [done|]. by rewrite IH.
  - intros i. apply replace_newline_get.
  - intros i. rewrite replace_newline_get.
    destruct (String.get i s) as [c|]; simpl; [|done].
    intros [= Hc]. by apply newline_to_space_not_newline in Hc.
  - induction s as [|c s IH]; simpl; [done|]. rewrite IH. f_equal.
    apply newline_to_space_idemp.
Qed.

Lemma length_kept_islice (start_date : datetime) (n : nat) (g : generator) :
  (length (kept start_date (islice n g)) ≤ n)%nat.
Proof.
  revert g. induction n as [|n IH]; intros g; simpl; [lia|].
  destruct g as [|r rest|e]; simpl; try lia.
  destruct (in_window start_date r); simpl; [|lia].
  specialize (IH rest). lia.
Qed.

(** X2: a category contributes at most 200 records, so the list
    [fetch_recent_papers] returns has at most 800. *)
Theorem at_most_800_papers (days : Z) (w w' : World) (ps : list Paper) :
  fetch_recent_papers days w = (Returned ps, w') →
  (length ps ≤ 800)%nat ∧
  ∀ i category,
    (length (kept (cutoff w days) (answer (tick w) i category)) ≤ 200)%nat.
Proof.
  intros Hrun. rewrite fetch_recent_papers_eq in Hrun.
  apply for_categories_returned in Hrun as (_ & -> & _);
    [|apply cutoff_naive].
  assert (∀ i category,
    (length (kept (cutoff w days) (answer (tick w) i category)) ≤ 200)%nat)
    as Hcap by (intros i category; apply length_kept_islice).
  split; [|exact Hcap].
  unfold contributions, CATEGORIES. cbn [imap concat app].
  unfold compose. simpl.
  repeat rewrite length_app. repeat rewrite length_fmap. simpl.
  pose proof (Hcap 0%nat "cs.AI"). pose proof (Hcap 1%nat "cs.LG").
  pose proof (Hcap 2%nat "cs.CL"). pose proof (Hcap 3%nat "cs.CY").
  lia.
Qed.

(** X3: the walk stops at the first result that is too old and never runs
    the generator past it: whatever lies behind, be it results inside the
    window or an exception, has no effect. *)
Theorem early_exit_ignores_rest (w : World) (days : Z) (pre : list Result)
    (old : Result) (rest : generator) (acc : list Paper) :
  (∀ r, r ∈ pre → in_window (cutoff w days) r = true) →
  in_window (cutoff w days) old = false →
  walk (cutoff w days) (prepend pre (Yield old rest)) acc =
    Returned (acc ++ (make_paper <$> pre)).
Proof.
  intros Hpre Hold. rewrite walk_eq by apply cutoff_naive.
  assert (failure (cutoff w days) (prepend pre (Yield old rest)) = None ∧
          kept (cutoff w days) (prepend pre (Yield old rest)) = pre)
    as [-> ->]; [|done].
  induction pre as [|r pre IH]; simpl.
  - by rewrite Hold.
  - rewrite (Hpre r) by left.
    destruct IH as [-> ->]; [|done].
    intros r' Hr'. apply Hpre. by right.
Qed.

Lemma failure_raised_by (start_date : datetime) (g : generator) (e : exn) :
  failure start_date g = Some e → raised_by g = Some e.
Proof.
  induction g as [|r rest IH|e']; simpl; try done.
  destruct (in_window start_date r); [exact IH|done].
Qed.

Lemma raised_by_islice (n : nat) (g : generator) (e : exn) :
  raised_by (islice n g) = Some e → raised_by g = Some e.
Proof.
  revert g. induction n as [|n IH]; intros g; simpl; [done|].
  destruct g as [|r rest|e']; simpl; try done. apply IH.
Qed.

(** X4: for a window that Python can subtract from the clock reading,
    and whatever zones the publication times carry, the comparison of
    line 41 never fails: an exception that [fetch_recent_papers] ends
    with is one that the generator of one of its searches raised. *)
Theorem fetcher_raises_only_upstream (days : Z) (w w' : World) (e : exn) :
  timedelta_ok days = true →
  datetime_ok (cutoff w days) = true →
  fetch_recent_papers days w = (Raised e, w') →
  ∃ k category,
    CATEGORIES !! k = Some category ∧
    raised_by (service w (k + length (issued w))%nat (search_for category))
      = Some e.
Proof.
  intros _ _ Hrun. rewrite fetch_recent_papers_eq in Hrun.
  apply for_categories_raised in Hrun as (k & c & Hk & _ & Hf);
    [|apply cutoff_naive].
  exists k, c. split; [done|].
  apply failure_raised_by, raised_by_islice in Hf. exact Hf.
Qed.

(** X5: for a window that Python can subtract from the clock reading,
    [fetch_recent_papers], however it ends, reads the clock once, leaves
    the file system alone, and sends the searches of an initial stretch
    of the categories, each once and in order: all four when it returns,
    at least one when it raises. *)
Theorem fetcher_frame (days : Z) (w w' : World) (o : outcome (list Paper)) :
  timedelta_ok days = true →
  datetime_ok (cutoff w days) = true →
  fetch_recent_papers days w = (o, w') →
  clock w' = clock w ∧ service w' = service w ∧ fs w' = fs w ∧
  ticks w' = S (ticks w) ∧
  ∃ k, issued w' = issued w ++ (search_for <$> take k CATEGORIES) ∧
       (k ≤ length CATEGORIES)%nat ∧
       match o with
       | Returned _ => k = length CATEGORIES
       | Raised _ => (1 ≤ k)%nat
       end.
Proof.
  intros _ _ Hrun. rewrite fetch_recent_papers_eq in Hrun.
  destruct o as [ps|e].
  - apply for_categories_returned in Hrun as (-> & _ & _);
      [|apply cutoff_naive].
    repeat split. exists (length CATEGORIES). by rewrite firstn_all.
  - apply for_categories_raised in Hrun as (k & c & Hk & -> & _);
      [|apply cutoff_naive].
    repeat split. exists (S k). split; [done|].
    apply lookup_lt_Some in Hk. lia.
Qed.

Lemma kept_widen (sd1 sd2 : datetime) (g : generator) :
  wall sd1 ≤ wall sd2 → kept sd2 g `prefix_of` kept sd1 g.
Proof.
  intros Hle. induction g as [|r rest IH|e]; simpl; try done.
  unfold in_window.
  destruct (Z.leb_spec (wall sd2) (wall (r_published r))).
  - rewrite (proj2 (Z.leb_le _ _)) by lia. by apply prefix_cons.
  - apply prefix_nil.
Qed.

Lemma failure_widen (sd1 sd2 : datetime) (g : generator) :
  wall sd1 ≤ wall sd2 → failure sd1 g = None → failure sd2 g = None.
Proof.
  intros Hle. induction g as [|r rest IH|e]; simpl; try done.
  unfold in_window.
  destruct (Z.leb_spec (wall sd2) (wall (r_published r))); [|done].
  by rewrite (proj2 (Z.leb_le _ _)) by lia.
Qed.

(** X6: a shorter window never finds more: if the walk over a generator
    returns for a window of [days1] days, it returns for every window of
    [days2 ≤ days1] days as well, with an initial stretch of the same
    records. *)
Theorem shorter_window_prefix (w : World) (days1 days2 : Z) (g : generator)
    (ps1 : list Paper) :
  days2 ≤ days1 →
  walk (cutoff w days1) g [] = Returned ps1 →
  ∃ ps2, walk (cutoff w days2) g [] = Returned ps2 ∧ ps2 `prefix_of` ps1.
Proof.
  intros Hdays Hwalk.
  assert (wall (cutoff w days1) ≤ wall (cutoff w days2)) as Hle.
  { unfold cutoff, sub, timedelta, us_per_day. simpl. nia. }
  rewrite walk_eq in Hwalk by apply cutoff_naive.
  rewrite walk_eq by apply cutoff_naive.
  destruct (failure (cutoff w days1) g) eqn:Hf; [done|].
  rewrite (failure_widen _ _ _ Hle Hf). injection Hwalk as <-.
  eexists. split; [done|]. simpl.
  destruct (kept_widen _ _ g Hle) as [l ->].
  rewrite fmap_app. by eexists.
Qed.

(** X7: the test of line 41, applied to a publication time whose offset
    from UTC is [off] on a machine whose local time is [local] ahead of
    UTC, compares the two instants shifted by [local - off]: the window
    is exact only where the two offsets agree. *)
Theorem window_test_in_instants (w : World) (days local off : Z)
    (d : datetime) :
  tzinfo d = Some off →
  ge (replace_tzinfo_None d) (cutoff w days) =
    Some (instant local (cutoff w days) + (local - off) <=? instant local d).
Proof.
  intros Hd. rewrite ge_naive by apply cutoff_naive.
  unfold instant. rewrite Hd, cutoff_naive. f_equal.
  destruct (Z.leb_spec (wall (cutoff w days)) (wall d));
    destruct (Z.leb_spec (wall (cutoff w days) - local + (local - off))
                (wall d - off)); try done; lia.
Qed.

(** X8: in a listing in descending order, every result that the search
    returned and that lies inside the window has its record in the list
    [fetch_recent_papers] returns. *)
Theorem in_window_results_are_kept (days : Z) (w w' : World)
    (ps : list Paper) (i : nat) (category : string) (r : Result) :
  fetch_recent_papers days w = (Returned ps, w') →
  CATEGORIES !! i = Some category →
  descending (yielded (answer (tick w) i category)) →
  r ∈ yielded (answer (tick w) i category) →
  in_window (cutoff w days) r = true →
  make_paper r ∈ ps.
Proof.
  intros Hrun Hi Hs Hr Hw. rewrite fetch_recent_papers_eq in Hrun.
  apply for_categories_returned in Hrun as (_ & -> & _);
    [|apply cutoff_naive].
  rewrite app_nil_l. apply list_elem_of_In, in_concat.
  exists (make_paper <$> kept (cutoff w days) (answer (tick w) i category)).
  split; apply list_elem_of_In.
  - unfold contributions.
    apply (elem_of_lookup_imap_2
             (λ i c, make_paper <$> kept (cutoff w days) (answer (tick w) i c))
             CATEGORIES category i Hi).
  - apply list_elem_of_fmap_2. by apply kept_descending.
Qed.

(** ** Further properties of the Writer *)

Section WriterOutcomes.
Context `{Formats}.

(** What a call of [save_to_json] does, by what is on disk. *)
Lemma save_to_json_outcome (papers : list Paper) (days : Z) (w : World) :
  save_to_json papers days w =
    if is_file (fs w !! data_dir) then (Raised FileExistsError, w)
    else if is_dir (fs w !! dated_file w)
         then (Raised IsADirectoryError, blocked_dated w)
    else if is_dir (fs w !! latest_file)
         then (Raised IsADirectoryError, blocked_latest papers days w)
    else (Returned (), saved papers days w).
Proof.
  unfold save_to_json, saved, blocked_dated, blocked_latest, written,
    dated_file, mbind, M_bind, mkdir_exist_ok, datetime_now, write_file,
    reading.
  simpl.
  destruct (fs w !! data_dir) as [[|c]|] eqn:Hdir; simpl; try done.
  - rewrite (insert_id (fs w) data_dir Dir Hdir).
    destruct (fs w !! filename _) as [[|c]|] eqn:Hfile; simpl; try done;
      (rewrite lookup_insert_ne by apply dated_not_latest);
      destruct (fs w !! latest_file) as [[|c']|]; simpl; done.
  - rewrite lookup_insert_ne by (apply not_eq_sym, dated_not_dir).
    destruct (fs w !! filename _) as [[|c]|] eqn:Hfile; simpl; try done;
      (rewrite lookup_insert_ne by apply dated_not_latest);
      (rewrite lookup_insert_ne by (apply not_eq_sym, latest_not_dir));
      destruct (fs w !! latest_file) as [[|c']|]; simpl; done.
Qed.

End WriterOutcomes.

(** X10: when a regular file sits where the output directory should be,
    [save_to_json] raises FileExistsError at once: the clock is not read
    and nothing on disk changes. *)
Theorem save_blocked_directory `{Formats} (papers : list Paper) (days : Z)
    (w : World) (c : string) :
  fs w !! data_dir = Some (File c) →
  save_to_json papers days w = (Raised FileExistsError, w).
Proof. intros Hdir. rewrite save_to_json_outcome. by rewrite Hdir. Qed.

(** X11: when a directory sits where the dated file should be, and the
    window is one that Python can subtract from the clock reading of
    line 75, [save_to_json] raises IsADirectoryError after it has made
    sure of the output directory and read the clock four times; neither
    file is written, the latest file is as it was. *)
Theorem save_blocked_dated `{Formats} (papers : list Paper) (days : Z)
    (w : World) :
  timedelta_ok days = true →
  datetime_ok (sub (reading w 2) (timedelta days)) = true →
  is_file (fs w !! data_dir) = false →
  fs w !! dated_file w = Some Dir →
  ∃ w', save_to_json papers days w = (Raised IsADirectoryError, w') ∧
        ticks w' = (4 + ticks w)%nat ∧
        fs w' !! data_dir = Some Dir ∧
        ∀ p, p ≠ data_dir → fs w' !! p = fs w !! p.
Proof.
  intros _ _ Hdir Hdated. exists (blocked_dated w).
  rewrite save_to_json_outcome, Hdir, Hdated. simpl.
  repeat split; [apply lookup_insert_eq|].
  intros p Hp. by rewrite lookup_insert_ne.
Qed.

(** X12: the two writes are not atomic.  When a directory sits where the
    latest file should be, nothing else is in the way, and the window is
    one that Python can subtract from the clock reading of line 75,
    [save_to_json] raises IsADirectoryError after the dated file has
    been written: the dated file holds the new text, the latest path is
    still the directory, every other path but the output directory is
    as it was. *)
Theorem save_blocked_latest `{Formats} (papers : list Paper) (days : Z)
    (w : World) :
  timedelta_ok days = true →
  datetime_ok (sub (reading w 2) (timedelta days)) = true →
  is_file (fs w !! data_dir) = false →
  is_dir (fs w !! dated_file w) = false →
  fs w !! latest_file = Some Dir →
  ∃ w', save_to_json papers days w = (Raised IsADirectoryError, w') ∧
        fs w' !! dated_file w =
          Some (File (json_dump (written papers days w))) ∧
        fs w' !! latest_file = Some Dir ∧
        ∀ p, p ≠ data_dir → p ≠ dated_file w → fs w' !! p = fs w !! p.
Proof.
  intros _ _ Hdir Hdated Hlatest. exists (blocked_latest papers days w).
  rewrite save_to_json_outcome, Hdir, Hdated, Hlatest. simpl.
  repeat split.
  - apply lookup_insert_eq.
  - rewrite lookup_insert_ne by apply dated_not_latest.
    rewrite lookup_insert_ne by (apply not_eq_sym, latest_not_dir). done.
  - intros p Hp1 Hp2. by rewrite !lookup_insert_ne.
Qed.

(** X14: of two runs that return and whose dated files differ, the
    second leaves the dated file of the first as the first wrote it,
    writes its own, and overwrites the latest file. *)
Theorem other_day_keeps_history `{Formats} (w w1 w2 : World) :
  main w = (Returned (), w1) →
  main w1 = (Returned (), w2) →
  dated_file (fetched w1) ≠ dated_file (fetched w) →
  let out1 := written (collected w) DAYS (fetched w) in
  let out2 := written (collected w1) DAYS (fetched w1) in
  fs w2 !! dated_file (fetched w) = Some (File (json_dump out1)) ∧
  fs w2 !! dated_file (fetched w1) = Some (File (json_dump out2)) ∧
  fs w2 !! latest_file = Some (File (json_dump out2)).
Proof.
  intros Hrun1 Hrun2 Hne out1 out2.
  apply main_returned in Hrun1 as (_ & _ & Hw1).
  apply main_returned in Hrun2 as (_ & _ & Hw2).
  rewrite Hw2. split; [|split; [apply saved_dated | apply saved_latest]].
  rewrite saved_other.
  - change (fs (fetched w1)) with (fs w1). rewrite Hw1. apply saved_dated.
  - apply dated_not_dir.
  - by apply not_eq_sym.
  - apply dated_not_latest.
Qed.

(** ** The further properties on concrete runs *)

Lemma outcome_in_snd {A} (m : M A) (w : World) (o : outcome A) :
  fst (m w) = o → m w = (o, snd (m w)).
Proof. destruct (m w) as [o' w']. simpl. by intros ->. Qed.

Lemma at_most_800_papers_witness :
  fetch_recent_papers 7 Runs.cross_listed =
    (Returned [make_paper Runs.fresh; make_paper Runs.fresh],
     snd (fetch_recent_papers 7 Runs.cross_listed)) ∧
  ((length [make_paper Runs.fresh; make_paper Runs.fresh] ≤ 800)%nat ∧
   ∀ i category,
     (length (kept (cutoff Runs.cross_listed 7)
                (answer (tick Runs.cross_listed) i category)) ≤ 200)%nat).
Proof.
  assert (fetch_recent_papers 7 Runs.cross_listed =
            (Returned [make_paper Runs.fresh; make_paper Runs.fresh],
             snd (fetch_recent_papers 7 Runs.cross_listed))) as Hrun.
  { apply (outcome_in_snd (fetch_recent_papers 7) Runs.cross_listed).
    vm_compute; reflexivity. }
  split; [exact Hrun|].
  exact (at_most_800_papers 7 Runs.cross_listed _ _ Hrun).
Defined.

Lemma early_exit_ignores_rest_witness :
  in_window (cutoff Runs.quiet_world 7) Cases.stale = false ∧
  walk (cutoff Runs.quiet_world 7) (prepend [Runs.fresh] Cases.hidden) [] =
    Returned ([] ++ (make_paper <$> [Runs.fresh])).
Proof.
  assert (∀ r, r ∈ [Runs.fresh] →
            in_window (cutoff Runs.quiet_world 7) r = true) as Hpre.
  { intros r Hr. apply list_elem_of_singleton in Hr as ->.
    vm_compute; reflexivity. }
  assert (in_window (cutoff Runs.quiet_world 7) Cases.stale = false) as Hold
    by (vm_compute; reflexivity).
  split; [exact Hold|].
  exact (early_exit_ignores_rest Runs.quiet_world 7 [Runs.fresh] Cases.stale
           (Yield Runs.fresh (Raise (UpstreamError "HTTP 503"))) []
           Hpre Hold).
Defined.

Lemma fetcher_raises_only_upstream_witness :
  timedelta_ok 7 = true ∧
  datetime_ok (cutoff Runs.failing_world 7) = true ∧
  fetch_recent_papers 7 Runs.failing_world =
    (Raised (UpstreamError "HTTP 503"),
     snd (fetch_recent_papers 7 Runs.failing_world)) ∧
  ∃ k category,
    CATEGORIES !! k = Some category ∧
    raised_by (service Runs.failing_world
                 (k + length (issued Runs.failing_world))%nat
                 (search_for category))
      = Some (UpstreamError "HTTP 503").
Proof.
  assert (fetch_recent_papers 7 Runs.failing_world =
            (Raised (UpstreamError "HTTP 503"),
             snd (fetch_recent_papers 7 Runs.failing_world))) as Hrun.
  { apply (outcome_in_snd (fetch_recent_papers 7) Runs.failing_world).
    vm_compute; reflexivity. }
  assert (timedelta_ok 7 = true) as Hdays by (vm_compute; reflexivity).
  assert (datetime_ok (cutoff Runs.failing_world 7) = true) as Hcut
    by (vm_compute; reflexivity).
  repeat (split; [assumption|]).
  exact (fetcher_raises_only_upstream 7 Runs.failing_world _ _
           Hdays Hcut Hrun).
Defined.

Lemma fetcher_frame_witness :
  timedelta_ok 7 = true ∧
  datetime_ok (cutoff Runs.failing_world 7) = true ∧
  fetch_recent_papers 7 Runs.failing_world =
    (Raised (UpstreamError "HTTP 503"),
     snd (fetch_recent_papers 7 Runs.failing_world)) ∧
  (clock (snd (fetch_recent_papers 7 Runs.failing_world)) =
     clock Runs.failing_world ∧
   service (snd (fetch_recent_papers 7 Runs.failing_world)) =
     service Runs.failing_world ∧
   fs (snd (fetch_recent_papers 7 Runs.failing_world)) =
     fs Runs.failing_world ∧
   ticks (snd (fetch_recent_papers 7 Runs.failing_world)) =
     S (ticks Runs.failing_world) ∧
   ∃ k, issued (snd (fetch_recent_papers 7 Runs.failing_world)) =
          issued Runs.failing_world ++ (search_for <$> take k CATEGORIES) ∧
        (k ≤ length CATEGORIES)%nat ∧ (1 ≤ k)%nat).
Proof.
  assert (fetch_recent_papers 7 Runs.failing_world =
            (Raised (UpstreamError "HTTP 503"),
             snd (fetch_recent_papers 7 Runs.failing_world))) as Hrun.
  { apply (outcome_in_snd (fetch_recent_papers 7) Runs.failing_world).
    vm_compute; reflexivity. }
  assert (timedelta_ok 7 = true) as Hdays by (vm_compute; reflexivity).
  assert (datetime_ok (cutoff Runs.failing_world 7) = true) as Hcut
    by (vm_compute; reflexivity).
  repeat (split; [assumption|]).
  exact (fetcher_frame 7 Runs.failing_world _ _ Hdays Hcut Hrun).
Defined.

Lemma shorter_window_prefix_witness :
  1 ≤ 7 ∧
  walk (cutoff Runs.quiet_world 7) (of_list Runs.listing) [] =
    Returned [make_paper (Examples.entry "a" (10 * Examples.window));
              make_paper (Examples.entry "b" (9 * Examples.window + 5))] ∧
  ∃ ps2,
    walk (cutoff Runs.quiet_world 1) (of_list Runs.listing) [] =
      Returned ps2 ∧
    ps2 `prefix_of`
      [make_paper (Examples.entry "a" (10 * Examples.window));
       make_paper (Examples.entry "b" (9 * Examples.window + 5))].
Proof.
  assert (1 ≤ 7) as Hdays by lia.
  assert (walk (cutoff Runs.quiet_world 7) (of_list Runs.listing) [] =
    Returned [make_paper (Examples.entry "a" (10 * Examples.window));
              make_paper (Examples.entry "b" (9 * Examples.window + 5))])
    as Hwalk by (vm_compute; reflexivity).
  split; [exact Hdays|]. split; [exact Hwalk|].
  exact (shorter_window_prefix Runs.quiet_world 7 1 (of_list Runs.listing)
           _ Hdays Hwalk).
Defined.

Lemma window_test_in_instants_witness :
  tzinfo (Examples.utc (9 * Examples.window)) = Some 0 ∧
  ge (replace_tzinfo_None (Examples.utc (9 * Examples.window)))
     (cutoff Runs.edge_world 7) =
    Some (instant (-5 * 3600 * Examples.second) (cutoff Runs.edge_world 7)
            + (-5 * 3600 * Examples.second - 0)
          <=? instant (-5 * 3600 * Examples.second)
                (Examples.utc (9 * Examples.window))).
Proof.
  split; [reflexivity|].
  exact (window_test_in_instants Runs.edge_world 7
           (-5 * 3600 * Examples.second) 0
           (Examples.utc (9 * Examples.window)) eq_refl).
Defined.

Lemma in_window_results_are_kept_witness :
  fetch_recent_papers 7 Runs.cross_listed =
    (Returned [make_paper Runs.fresh; make_paper Runs.fresh],
     snd (fetch_recent_papers 7 Runs.cross_listed)) ∧
  Runs.fresh ∈ yielded (answer (tick Runs.cross_listed) 1 "cs.LG") ∧
  in_window (cutoff Runs.cross_listed 7) Runs.fresh = true ∧
  make_paper Runs.fresh ∈ [make_paper Runs.fresh; make_paper Runs.fresh].
Proof.
  assert (fetch_recent_papers 7 Runs.cross_listed =
            (Returned [make_paper Runs.fresh; make_paper Runs.fresh],
             snd (fetch_recent_papers 7 Runs.cross_listed))) as Hrun.
  { apply (outcome_in_snd (fetch_recent_papers 7) Runs.cross_listed).
    vm_compute; reflexivity. }
  assert (Runs.fresh ∈ yielded (answer (tick Runs.cross_listed) 1 "cs.LG"))
    as Hr by (vm_compute; left).
  assert (in_window (cutoff Runs.cross_listed 7) Runs.fresh = true) as Hw
    by (vm_compute; reflexivity).
  assert (descending (yielded (answer (tick Runs.cross_listed) 1 "cs.LG")))
    as Hs.
  { replace (yielded (answer (tick Runs.cross_listed) 1 "cs.LG"))
      with [Runs.fresh] by (vm_compute; reflexivity).
    repeat constructor. }
  repeat (split; [assumption|]).
  exact (in_window_results_are_kept 7 Runs.cross_listed _ _ 1 "cs.LG"
           Runs.fresh Hrun eq_refl Hs Hr Hw).
Defined.

Lemma save_blocked_directory_witness :
  fs Cases.data_is_file !! data_dir = Some (File "x") ∧
  @save_to_json Examples.plain [] 7 Cases.data_is_file =
    (Raised FileExistsError, Cases.data_is_file).
Proof.
  assert (fs Cases.data_is_file !! data_dir = Some (File "x")) as Hdir
    by (vm_compute; reflexivity).
  split; [exact Hdir|].
  exact (@save_blocked_directory Examples.plain [] 7 Cases.data_is_file "x"
           Hdir).
Defined.

Lemma save_blocked_dated_witness :
  timedelta_ok 7 = true ∧
  datetime_ok (sub (reading Cases.dated_is_dir 2) (timedelta 7)) = true ∧
  is_file (fs Cases.dated_is_dir !! data_dir) = false ∧
  fs Cases.dated_is_dir !! @dated_file Examples.plain Cases.dated_is_dir =
    Some Dir ∧
  ∃ w', @save_to_json Examples.plain [] 7 Cases.dated_is_dir =
          (Raised IsADirectoryError, w') ∧
        ticks w' = (4 + ticks Cases.dated_is_dir)%nat ∧
        fs w' !! data_dir = Some Dir ∧
        ∀ p, p ≠ data_dir → fs w' !! p = fs Cases.dated_is_dir !! p.
Proof.
  assert (is_file (fs Cases.dated_is_dir !! data_dir) = false) as Hdir
    by (vm_compute; reflexivity).
  assert (fs Cases.dated_is_dir
            !! @dated_file Examples.plain Cases.dated_is_dir = Some Dir)
    as Hdated by (vm_compute; reflexivity).
  assert (timedelta_ok 7 = true) as Hdays by (vm_compute; reflexivity).
  assert (datetime_ok (sub (reading Cases.dated_is_dir 2) (timedelta 7))
          = true) as Hsub by (vm_compute; reflexivity).
  repeat (split; [assumption|]).
  exact (@save_blocked_dated Examples.plain [] 7 Cases.dated_is_dir
           Hdays Hsub Hdir Hdated).
Defined.

Lemma save_blocked_latest_witness :
  timedelta_ok 7 = true ∧
  datetime_ok (sub (reading Cases.latest_is_dir 2) (timedelta 7)) = true ∧
  is_file (fs Cases.latest_is_dir !! data_dir) = false ∧
  is_dir (fs Cases.latest_is_dir
            !! @dated_file Examples.plain Cases.latest_is_dir) = false ∧
  fs Cases.latest_is_dir !! latest_file = Some Dir ∧
  ∃ w', @save_to_json Examples.plain [] 7 Cases.latest_is_dir =
          (Raised IsADirectoryError, w') ∧
        fs w' !! @dated_file Examples.plain Cases.latest_is_dir =
          Some (File (@json_dump Examples.plain
                        (written [] 7 Cases.latest_is_dir))) ∧
        fs w' !! latest_file = Some Dir ∧
        ∀ p, p ≠ data_dir →
             p ≠ @dated_file Examples.plain Cases.latest_is_dir →
             fs w' !! p = fs Cases.latest_is_dir !! p.
Proof.
  assert (is_file (fs Cases.latest_is_dir !! data_dir) = false) as Hdir
    by (vm_compute; reflexivity).
  assert (is_dir (fs Cases.latest_is_dir
            !! @dated_file Examples.plain Cases.latest_is_dir) = false)
    as Hdated by (vm_compute; reflexivity).
  assert (fs Cases.latest_is_dir !! latest_file = Some Dir) as Hlatest
    by (vm_compute; reflexivity).
  assert (timedelta_ok 7 = true) as Hdays by (vm_compute; reflexivity).
  assert (datetime_ok (sub (reading Cases.latest_is_dir 2) (timedelta 7))
          = true) as Hsub by (vm_compute; reflexivity).
  repeat (split; [assumption|]).
  exact (@save_blocked_latest Examples.plain [] 7 Cases.latest_is_dir
           Hdays Hsub Hdir Hdated Hlatest).
Defined.

(** The script itself, started where the latest path is a directory:
    the dated file of the day is written, then the run fails. *)
Example latest_is_dir_run :
  fst (@main Examples.plain Cases.latest_is_dir) = Raised IsADirectoryError ∧
  fs (snd (@main Examples.plain Cases.latest_is_dir)) !! "data/arxiv-70.json"
    = Some (File "0:") ∧
  fs (snd (@main Examples.plain Cases.latest_is_dir)) !! "data/latest.json"
    = Some Dir.
Proof. repeat split; vm_compute; reflexivity. Qed.

Lemma other_day_keeps_history_witness :
  @main Examples.plain Cases.two_days =
    (Returned (), Runs.after Cases.two_days) ∧
  @main Examples.plain (Runs.after Cases.two_days) =
    (Returned (), Runs.after (Runs.after Cases.two_days)) ∧
  @dated_file Examples.plain (fetched (Runs.after Cases.two_days)) ≠
    @dated_file Examples.plain (fetched Cases.two_days) ∧
  (let w := Cases.two_days in
   let w1 := Runs.after Cases.two_days in
   let w2 := Runs.after (Runs.after Cases.two_days) in
   let out1 := written (collected w) DAYS (fetched w) in
   let out2 := written (collected w1) DAYS (fetched w1) in
   fs w2 !! @dated_file Examples.plain (fetched w) =
     Some (File (@json_dump Examples.plain out1)) ∧
   fs w2 !! @dated_file Examples.plain (fetched w1) =
     Some (File (@json_dump Examples.plain out2)) ∧
   fs w2 !! latest_file = Some (File (@json_dump Examples.plain out2))).
Proof.
  assert (@main Examples.plain Cases.two_days =
            (Returned (), Runs.after Cases.two_days)) as Hrun1.
  { apply (returned_in_snd (@main Examples.plain) Cases.two_days ()).
    vm_compute; reflexivity. }
  assert (@main Examples.plain (Runs.after Cases.two_days) =
            (Returned (), Runs.after (Runs.after Cases.two_days))) as Hrun2.
  { apply (returned_in_snd (@main Examples.plain)
             (Runs.after Cases.two_days) ()).
    vm_compute; reflexivity. }
  assert (@dated_file Examples.plain (fetched (Runs.after Cases.two_days)) ≠
          @dated_file Examples.plain (fetched Cases.two_days)) as Hne
    by (vm_compute; discriminate).
  repeat (split; [assumption|]).
  exact (@other_day_keeps_history Examples.plain Cases.two_days
           (Runs.after Cases.two_days)
           (Runs.after (Runs.after Cases.two_days)) Hrun1 Hrun2 Hne).
Defined.

(** The files after the two runs of [two_days]. *)
Example two_days_files :
  fs (Runs.after (Runs.after Cases.two_days)) !! "data/arxiv-70.json" =
    Some (File ("1:" +:+ Runs.url)) ∧
  fs (Runs.after (Runs.after Cases.two_days)) !! "data/arxiv-77.json" =
    Some (File "0:") ∧
  fs (Runs.after (Runs.after Cases.two_days)) !! "data/latest.json" =
    Some (File "0:").
Proof. repeat split; vm_compute; reflexivity. Qed.

(** ** The cap on a search *)

Lemma islice_prepend (pre : list Result) (rest : generator) :
  islice (length pre) (prepend pre rest) = of_list pre.
Proof. induction pre as [|r pre IH]; simpl; [done|]. by rewrite IH. Qed.

Lemma kept_of_list_all (start_date : datetime) (l : list Result) :
  (∀ r, r ∈ l → in_window start_date r = true) →
  kept start_date (of_list l) = l.
Proof.
  induction l as [|r l IH]; intros Hall; simpl; [done|].
  rewrite (Hall r) by left. f_equal. apply IH.
  intros r' Hr'. apply Hall. by right.
Qed.

(** X15: a search is cut off after 200 results.  When the first 200
    results of a category all lie inside the window, exactly these are
    kept: whatever the service would yield after them, be it further
    results inside the window or an exception, has no effect. *)
Theorem cap_cuts_off (w : World) (days : Z) (pre : list Result)
    (rest : generator) (acc : list Paper) :
  length pre = 200%nat →
  (∀ r, r ∈ pre → in_window (cutoff w days) r = true) →
  walk (cutoff w days) (islice 200 (prepend pre rest)) acc =
    Returned (acc ++ (make_paper <$> pre)).
Proof.
  intros Hlen Hall. rewrite <- Hlen, islice_prepend.
  rewrite walk_eq by apply cutoff_naive.
  by rewrite failure_of_list, kept_of_list_all.
Qed.

Lemma cap_cuts_off_witness :
  length (replicate 200 Runs.fresh) = 200%nat ∧
  walk (cutoff Runs.quiet_world 7)
    (islice 200 (prepend (replicate 200 Runs.fresh)
                   (Yield Runs.fresh (Raise (UpstreamError "HTTP 503")))))
    [] =
    Returned ([] ++ (make_paper <$> replicate 200 Runs.fresh)).
Proof.
  assert (length (replicate 200 Runs.fresh) = 200%nat) as Hlen
    by (vm_compute; reflexivity).
  assert (∀ r, r ∈ replicate 200 Runs.fresh →
            in_window (cutoff Runs.quiet_world 7) r = true) as Hall.
  { intros r Hr. apply elem_of_replicate in Hr as [-> _].
    vm_compute; reflexivity. }
  split; [exact Hlen|].
  exact (cap_cuts_off Runs.quiet_world 7 (replicate 200 Runs.fresh)
           (Yield Runs.fresh (Raise (UpstreamError "HTTP 503"))) []
           Hlen Hall).
Defined.
